(** * sus.py: the SUS-PECIES report generator

    A shallow embedding of [sus.py] and of the library calls it makes,
    followed by the properties of the pipeline

      read_csv -> fillna -> parse_actions / PubMedIDs split -> sorted(unique)
               -> Template.render -> makedirs / open / write.

    Text.  A Python [str] is a sequence of code points.  Here a [string]
    holds its UTF-8 encoding, one byte per [ascii].  Every character the
    program inspects (| ^ # , the double quote, CR, LF, the letters of
    increases and decreases) is ASCII (the white space that the parser
    strips to find blank lines apart, which [Py.strip_truthy] reads by its
    UTF-8 bytes), and an ASCII byte never occurs inside
    the encoding of another code point, so splitting, replacing, searching
    and prefix tests on the bytes are the images of the same operations on
    code points; the byte order of UTF-8 is the code point order, so
    [sorted] is the same on both. *)

From Stdlib Require Import Ascii String List Bool Arith Lia.
From stdpp Require Import base option list strings sorting gmap.

Local Open Scope string_scope.
Local Open Scope list_scope.
Local Open Scope nat_scope.

(* ===================================================================== *)
(** ** Python built-ins used by the script *)
(* ===================================================================== *)

Module Py.

(** [s.split(sep)] for a separator of one character: never the empty
    list, the empty string gives one empty segment. *)
Fixpoint split (sep : ascii) (s : string) : list string :=
  match s with
  | EmptyString => [EmptyString]
  | String c s' =>
      if Ascii.eqb c sep then EmptyString :: split sep s'
      else match split sep s' with
           | [] => [String c EmptyString]
           | seg :: segs => String c seg :: segs
           end
  end.

(** [sep.join(l)] *)
Fixpoint join (sep : ascii) (l : list string) : string :=
  match l with
  | [] => EmptyString
  | [x] => x
  | x :: l' => x +:+ String sep (join sep l')
  end.

(** Truth value of a string: [if act], [if pid], [not act]. *)
Definition truthy (s : string) : bool :=
  match s with EmptyString => false | String _ _ => true end.

Definition lower_char (c : ascii) : ascii :=
  let n := nat_of_ascii c in
  if (65 <=? n) && (n <=? 90) then ascii_of_nat (n + 32) else c.

(** [s.lower()].  Bytes outside A-Z are kept: the lower-case form of a
    code point above 127 never begins one of the two ASCII prefixes the
    script tests for, so both [startswith] tests see the same answer. *)
Fixpoint lower (s : string) : string :=
  match s with
  | EmptyString => EmptyString
  | String c s' => String (lower_char c) (lower s')
  end.

(** [s.startswith(p)] *)
Definition startswith (s p : string) : bool := String.prefix p s.

(** [s.replace(old, new)] for [old] and [new] of one character each. *)
Fixpoint replace (old new : ascii) (s : string) : string :=
  match s with
  | EmptyString => EmptyString
  | String c s' =>
      String (if Ascii.eqb c old then new else c) (replace old new s')
  end.

(** [c in s] for a character [c]. *)
Fixpoint contains (c : ascii) (s : string) : bool :=
  match s with
  | EmptyString => false
  | String d s' => Ascii.eqb d c || contains c s'
  end.

(** [s[:s.find(c)]] when [c in s]: the text before the first [c]. *)
Fixpoint before (c : ascii) (s : string) : string :=
  match s with
  | EmptyString => EmptyString
  | String d s' => if Ascii.eqb d c then EmptyString else String d (before c s')
  end.

(** [str.isspace] on the ASCII range. *)
Definition isspace (c : ascii) : bool :=
  let n := nat_of_ascii c in
  ((9 <=? n) && (n <=? 13)) || ((28 <=? n) && (n <=? 32)).

(** The white space outside the ASCII range, by its UTF-8 bytes: U+0085
    and U+00A0 take two bytes; U+1680, U+2000 to U+200A, U+2028, U+2029,
    U+202F, U+205F and U+3000 take three. *)
Definition space2 (a b : ascii) : bool :=
  (nat_of_ascii a =? 194)
  && ((nat_of_ascii b =? 133) || (nat_of_ascii b =? 160)).

Definition space3 (a b c : ascii) : bool :=
  let x := nat_of_ascii a in
  let y := nat_of_ascii b in
  let z := nat_of_ascii c in
  ((x =? 225) && (y =? 154) && (z =? 128))
  || ((x =? 226) && (y =? 128)
      && (((128 <=? z) && (z <=? 138)) || (z =? 168) || (z =? 169) || (z =? 175)))
  || ((x =? 226) && (y =? 129) && (z =? 159))
  || ((x =? 227) && (y =? 128) && (z =? 128)).

(** Truth value of [s.strip()]: some character is not white space.  The
    text is read one code point at a time from the left, white space of
    every kind that [str.strip] takes off; the first code point that is
    none decides. *)
Fixpoint strip_truthy (s : string) : bool :=
  match s with
  | EmptyString => false
  | String a s1 =>
      if isspace a then strip_truthy s1
      else
        match s1 with
        | EmptyString => true
        | String b s2 =>
            if space2 a b then strip_truthy s2
            else
              match s2 with
              | EmptyString => true
              | String c s3 => if space3 a b c then strip_truthy s3 else true
              end
        end
  end.

(** [x in l] *)
Definition mem (x : string) (l : list string) : bool :=
  existsb (String.eqb x) l.

(** [pandas.unique]: distinct values in order of first appearance. *)
Fixpoint unique_from (seen l : list string) : list string :=
  match l with
  | [] => []
  | x :: l' =>
      if mem x seen then unique_from seen l'
      else x :: unique_from (x :: seen) l'
  end.
Definition unique (l : list string) : list string := unique_from [] l.

(** [sorted(l)] on strings: ascending in the code point order.  Python
    sorts with a stable merge sort; so does [merge_sort]. *)
Definition sorted (l : list string) : list string := merge_sort String.le l.

(** [str.isalnum] on the ASCII range. *)
Definition isalnum (c : ascii) : bool :=
  let n := nat_of_ascii c in
  ((48 <=? n) && (n <=? 57)) || ((65 <=? n) && (n <=? 90))
  || ((97 <=? n) && (n <=? 122)).

(** [s.lstrip()], [s.rstrip()] and [s.strip()]: white space of the ASCII
    range taken off the ends. *)
Fixpoint lstrip (s : string) : string :=
  match s with
  | EmptyString => EmptyString
  | String c s' => if isspace c then lstrip s' else s
  end.

Fixpoint rstrip (s : string) : string :=
  match s with
  | EmptyString => EmptyString
  | String c s' =>
      match rstrip s' with
      | EmptyString => if isspace c then EmptyString else String c EmptyString
      | String d r => String c (String d r)
      end
  end.

Definition strip (s : string) : string := rstrip (lstrip s).

(** [''.join(f(ch) for ch in s)] for [f] giving one character. *)
Fixpoint join_chars (f : ascii -> ascii) (s : string) : string :=
  match s with
  | EmptyString => EmptyString
  | String c s' => String (f c) (join_chars f s')
  end.

End Py.

(* ===================================================================== *)
(** ** Exceptions and results *)
(* ===================================================================== *)

Inductive exn :=
  | FileNotFoundError
  | PermissionError
  | FileExistsError
  | IsADirectoryError
  | ParserError (msg : string).

Inductive result (A : Type) :=
  | Ok (a : A)
  | Raise (e : exn).
Arguments Ok {A} a.
Arguments Raise {A} e.

(* ===================================================================== *)
(** ** The csv reader that the parser of pandas drives

    [pd.read_csv] with [engine='python'] and a separator of one character hands the
    open file to [csv.reader(f, dialect, strict=True)] with delimiter [,],
    quote character [034], doubled quotes, no escape character and no
    skipping of initial spaces.  The reader below is that state machine; the
    states for an escape character cannot be reached and are left out.  The
    limit on the length of one field ([csv.field_size_limit], 131072
    characters unless changed) is not in the state machine: the reader
    below goes on where the real one raises.  The properties that promise
    a result for a text, or compare two texts that differ in a field, are
    stated for [ordinary] text. *)
(* ===================================================================== *)

Module Csv.

Definition delimiter : ascii := ","%char.
Definition quotechar : ascii := "034"%char.

Inductive ParserState :=
  | START_RECORD
  | START_FIELD
  | IN_FIELD
  | IN_QUOTED_FIELD
  | QUOTE_IN_QUOTED_FIELD
  | EAT_CRNL.

Definition state_eqb (a b : ParserState) : bool :=
  match a, b with
  | START_RECORD, START_RECORD | START_FIELD, START_FIELD
  | IN_FIELD, IN_FIELD | IN_QUOTED_FIELD, IN_QUOTED_FIELD
  | QUOTE_IN_QUOTED_FIELD, QUOTE_IN_QUOTED_FIELD | EAT_CRNL, EAT_CRNL => true
  | _, _ => false
  end.

Record Reader := {
  state : ParserState;
  field : string;          (* the field being collected *)
  fields : list string     (* the fields of the record so far *)
}.

(** What [parse_process_char] is fed: a character of the line, or the
    end-of-line signal after its last character. *)
Inductive input := Char (c : ascii) | EOL.

Definition reset : Reader :=
  {| state := START_RECORD; field := ""; fields := [] |}.

Definition set_state (st : ParserState) (r : Reader) : Reader :=
  {| state := st; field := field r; fields := fields r |}.

Definition parse_save_field (r : Reader) : Reader :=
  {| state := state r; field := ""; fields := fields r ++ [field r] |}.

Definition parse_add_char (r : Reader) (c : ascii) : Reader :=
  {| state := state r; field := field r +:+ String c ""; fields := fields r |}.

Definition is_newline (c : ascii) : bool :=
  Ascii.eqb c "010"%char || Ascii.eqb c "013"%char.

(** The case START_FIELD, also entered from START_RECORD. *)
Definition start_field (r : Reader) (c : input) : result Reader :=
  match c with
  | EOL => Ok (set_state START_RECORD (parse_save_field r))
  | Char ch =>
      if is_newline ch then Ok (set_state EAT_CRNL (parse_save_field r))
      else if Ascii.eqb ch quotechar then Ok (set_state IN_QUOTED_FIELD r)
      else if Ascii.eqb ch delimiter then
        Ok (set_state START_FIELD (parse_save_field r))
      else Ok (set_state IN_FIELD (parse_add_char r ch))
  end.

Definition parse_process_char (r : Reader) (c : input) : result Reader :=
  match state r with
  | START_RECORD =>
      match c with
      | EOL => Ok r
      | Char ch =>
          if is_newline ch then Ok (set_state EAT_CRNL r)
          else start_field r c
      end
  | START_FIELD => start_field r c
  | IN_FIELD =>
      match c with
      | EOL => Ok (set_state START_RECORD (parse_save_field r))
      | Char ch =>
          if is_newline ch then Ok (set_state EAT_CRNL (parse_save_field r))
          else if Ascii.eqb ch delimiter then
            Ok (set_state START_FIELD (parse_save_field r))
          else Ok (parse_add_char r ch)
      end
  | IN_QUOTED_FIELD =>
      match c with
      | EOL => Ok r
      | Char ch =>
          if Ascii.eqb ch quotechar then Ok (set_state QUOTE_IN_QUOTED_FIELD r)
          else Ok (parse_add_char r ch)
      end
  | QUOTE_IN_QUOTED_FIELD =>
      match c with
      | EOL => Ok (set_state START_RECORD (parse_save_field r))
      | Char ch =>
          if Ascii.eqb ch quotechar then
            Ok (set_state IN_QUOTED_FIELD (parse_add_char r ch))
          else if Ascii.eqb ch delimiter then
            Ok (set_state START_FIELD (parse_save_field r))
          else if is_newline ch then
            Ok (set_state EAT_CRNL (parse_save_field r))
          else Raise (ParserError "',' expected after quote")
      end
  | EAT_CRNL =>
      match c with
      | EOL => Ok (set_state START_RECORD r)
      | Char ch =>
          if is_newline ch then Ok r
          else Raise (ParserError "new-line character seen in unquoted field")
      end
  end.

(** One line of the file: its characters, then EOL. *)
Fixpoint process_line (r : Reader) (line : string) : result Reader :=
  match line with
  | EmptyString => parse_process_char r EOL
  | String c line' =>
      match parse_process_char r (Char c) with
      | Ok r' => process_line r' line'
      | Raise e => Raise e
      end
  end.

(** Iterating the file object, opened with an empty [newline]: a line ends after
    LF, after CR LF, or after a CR that no LF follows, and keeps its
    ending. *)
Fixpoint iter_lines (s : string) : list string :=
  match s with
  | EmptyString => []
  | String c s' =>
      if Ascii.eqb c "010"%char then String c "" :: iter_lines s'
      else if Ascii.eqb c "013"%char then
        match s' with
        | String d s'' =>
            if Ascii.eqb d "010"%char
            then String c (String d "") :: iter_lines s''
            else String c "" :: iter_lines s'
        | EmptyString => [String c ""]
        end
      else
        match iter_lines s' with
        | [] => [String c ""]
        | l :: ls => String c l :: ls
        end
  end.

(** [Reader_iternext], called until the lines run out: a record is
    complete when a line ends in state START_RECORD; input that ends inside
    a record is an error in strict mode. *)
Fixpoint read_records (r : Reader) (lines : list string)
  : result (list (list string)) :=
  match lines with
  | [] =>
      if Py.truthy (field r) || state_eqb (state r) IN_QUOTED_FIELD
      then Raise (ParserError "unexpected end of data")
      else Ok []
  | line :: lines' =>
      match process_line r line with
      | Raise e => Raise e
      | Ok r' =>
          if state_eqb (state r') START_RECORD then
            match read_records reset lines' with
            | Ok recs => Ok (fields r' :: recs)
            | Raise e => Raise e
            end
          else read_records r' lines'
      end
  end.

Definition reader (text : string) : result (list (list string)) :=
  read_records reset (iter_lines text).

End Csv.

(* ===================================================================== *)
(** ** pandas: read_csv with the python engine, fillna

    The call of the script: comment marker [#], [header=None], eleven
    [names], [dtype=str], and the defaults [skip_blank_lines=True],
    [keep_default_na=True], [on_bad_lines='error'], [index_col=None].
    A cell is [Some s] for a string and [None] for NaN.  The text is the
    decoded content of the file; a byte order mark at its start is outside
    the model. *)
(* ===================================================================== *)

Module Pandas.

Definition comment : ascii := "#"%char.

(** The default NA tokens, [STR_NA_VALUES]. *)
Definition STR_NA_VALUES : list string :=
  [ "-1.#IND"; "1.#QNAN"; "1.#IND"; "-1.#QNAN"; "#N/A N/A"; "#N/A"; "N/A";
    "n/a"; "NA"; "<NA>"; "#NA"; "NULL"; "null"; "NaN"; "-NaN"; "nan";
    "-nan"; "None"; "" ].

(** [_check_comments] on one record, after the csv reader has split it:
    a field without the marker, or one that is an NA token, is kept; the
    first other field is cut at the marker, kept if something is left, and
    ends the record. *)
Fixpoint check_comments (line : list string) : list string :=
  match line with
  | [] => []
  | x :: line' =>
      if negb (Py.contains comment x) || Py.mem x STR_NA_VALUES
      then x :: check_comments line'
      else
        let x' := Py.before comment x in
        if Py.truthy x' then [x'] else []
  end.

(** The test of [_remove_empty_lines]: a record stays when it has more
    than one field, or one field that is not blank. *)
Definition nonempty_line (line : list string) : bool :=
  match line with
  | [] => false
  | [x] => Py.strip_truthy x
  | _ :: _ :: _ => true
  end.

Definition remove_empty_lines (lines : list (list string)) : list (list string) :=
  filter (fun l => nonempty_line l = true) lines.

(** [_get_lines]: the records of the file that count as data. *)
Definition data_lines (records : list (list string)) : list (list string) :=
  remove_empty_lines (map check_comments records).

(** [_get_index_name]: when the first data record has more fields than
    there are names, the surplus leading fields become the index. *)
Definition implicit_first_cols (ncols : nat) (content : list (list string)) : nat :=
  match content with
  | [] => 0
  | first :: _ => length first - ncols
  end.

(** [lib.to_object_array(content, min_width=col_len)]: short rows are
    filled with NaN. *)
Definition to_object_row (col_len : nat) (row : list string) : list (option string) :=
  map Some row ++ replicate (col_len - length row) None.

(** NA detection on a data column read with [dtype=str]. *)
Definition mask_na (cell : option string) : option string :=
  match cell with
  | Some s => if Py.mem s STR_NA_VALUES then None else Some s
  | None => None
  end.

(** [_rows_to_cols], [_exclude_implicit_index] and the conversion of the
    data columns.  A record longer than the columns (names plus implicit
    index) is a bad line, and the default for bad lines is to raise. *)
Definition rows_to_frame (ncols : nat) (content : list (list string))
  : result (list (list (option string))) :=
  let k := implicit_first_cols ncols content in
  let col_len := ncols + k in
  if existsb (fun row => col_len <? length row) content
  then Raise (ParserError "Expected fewer fields")
  else Ok (map (fun row => map mask_na (drop k (to_object_row col_len row))) content).

(** [pd.read_csv] as the script calls it, on the text of the file.  With
    [names] given, a file without data is an empty frame. *)
Definition read_csv (names : list string) (text : string)
  : result (list (list (option string))) :=
  match Csv.reader text with
  | Raise e => Raise e
  | Ok records => rows_to_frame (length names) (data_lines records)
  end.

(** [df.fillna(value)] *)
Definition fillna (value : string) (df : list (list (option string)))
  : list (list string) :=
  map (map (default value)) df.

End Pandas.


(* ===================================================================== *)
(** ** sus.py, lines 103-105

    [make_safe] is exact on ASCII names; [isalnum], [strip] and [lower]
    know nothing of the code points above 127. *)
(* ===================================================================== *)

Definition make_safe (name : string) : string :=
  let name := Py.replace " " "_" (Py.lower (Py.strip name)) in
  Py.join_chars
    (fun ch => if Py.isalnum ch || Ascii.eqb ch "_" then ch else "_"%char)
    name.

(* ===================================================================== *)
(** ** sus.py, lines 107-115 *)
(* ===================================================================== *)

Record Badge := { cls : string; txt : string }.

(** The loop of [parse_actions]: [continue] on an empty segment, else
    append one badge to [badges]. *)
Definition parse_actions_step (badges : list Badge) (act : string) : list Badge :=
  if negb (Py.truthy act) then badges
  else
    let la := Py.lower act in
    let cls :=
      if Py.startswith la "increases" then "bg-success"
      else if Py.startswith la "decreases" then "bg-danger"
      else "bg-secondary" in
    badges ++ [{| cls := cls; txt := Py.replace "^" " " act |}].

Definition parse_actions (cell : string) : list Badge :=
  fold_left parse_actions_step (Py.split "|" cell) [].

(* ===================================================================== *)
(** ** jinja2: what a compiled template does

    [Template(source)] compiles [source] in the default environment:
    [autoescape] off, [trim_blocks] and [lstrip_blocks] off (the text around
    a block tag is kept as it is), [keep_trailing_newline] off (one final
    newline of the source is dropped). *)
(* ===================================================================== *)

Module Jinja.

Record Environment := { autoescape : bool }.

(** The environment [Template(...)] creates when none is given. *)
Definition default_environment : Environment := {| autoescape := false |}.

(** [markupsafe.escape], what an expression goes through when
    [autoescape] is on. *)
Definition escape_char (c : ascii) : string :=
  if Ascii.eqb c "&"%char then "&amp;"
  else if Ascii.eqb c "<"%char then "&lt;"
  else if Ascii.eqb c ">"%char then "&gt;"
  else if Ascii.eqb c "'"%char then "&#39;"
  else if Ascii.eqb c "034"%char then "&#34;"
  else String c "".

Fixpoint escape (s : string) : string :=
  match s with
  | EmptyString => EmptyString
  | String c s' => escape_char c +:+ escape s'
  end.

(** An expression statement on a string value. *)
Definition output (env : Environment) (v : string) : string :=
  if autoescape env then escape v else v.

(** A [for] block: the body once per item, in order; the body sees
    [loop.last]. *)
Fixpoint for_loop {A : Type} (body : A -> bool -> string) (items : list A) : string :=
  match items with
  | [] => ""
  | [x] => body x true
  | x :: items' => body x false +:+ for_loop body items'
  end.

End Jinja.

(* ===================================================================== *)
(** ** sus.py: configuration and template (lines 6-101) *)
(* ===================================================================== *)

Definition CTD_FILE : string := "ctd_data/CTD_chem_gene_ixns.csv".
Definition OUTPUT_DIR : string := "network_outputs".
(** [os.path.join(OUTPUT_DIR, 'index.html')] *)
Definition OUTPUT_HTML : string := OUTPUT_DIR +:+ "/" +:+ "index.html".

Definition FIELD_NAMES : list string :=
  [ "ChemicalName"; "ChemicalID"; "CasRN"; "GeneSymbol"; "GeneID";
    "GeneForms"; "Organism"; "OrganismID"; "Interaction";
    "InteractionActions"; "PubMedIDs" ].

(** String literals below are written with a backquote wherever the source
    has a double quote (the source has no backquote); [dq] puts the double
    quotes back. *)
Definition dq (s : string) : string := Py.replace "`"%char "034"%char s.

Definition TEMPLATE : string := dq
"
<!doctype html>
<html lang=`en`>
<head>
  <meta charset=`utf-8`>
  <meta name=`viewport` content=`width=device-width, initial-scale=1`>
  <title>SUS-PECIES Database</title>
  <link href=`https://cdn.jsdelivr.net/npm/bootstrap@5.3.0/dist/css/bootstrap.min.css` rel=`stylesheet`>
  <link rel=`stylesheet` href=`https://cdn.datatables.net/1.13.6/css/dataTables.bootstrap5.min.css`>
</head>
<body>
  <nav class=`navbar navbar-expand-lg navbar-dark bg-dark mb-4`>
    <div class=`container-fluid`>
      <a class=`navbar-brand` href=`#`>SUS-PECIES</a>
      <span class=`navbar-text text-light`>A database for exploring chemical–species susceptibility interactions</span>
    </div>
  </nav>
  <div class=`container`>
    <div class=`row mb-3`>
      <div class=`col-md-4`>
        <select id=`chemFilter` class=`form-select`>
          <option value=``>All Chemicals</option>
          {% for chem in chems %}
          <option value=`{{ chem }}`>{{ chem }}</option>
          {% endfor %}
        </select>
      </div>
      <div class=`col-md-4`>
        <select id=`spFilter` class=`form-select`>
          <option value=``>All Species</option>
          {% for sp in species_list %}
          <option value=`{{ sp }}`>{{ sp }}</option>
          {% endfor %}
        </select>
      </div>
    </div>
    <table id=`susTable` class=`table table-striped table-bordered` style=`width:100%`>
      <thead class=`table-dark`><tr>
        <th>Chemical</th><th>Species</th><th>Gene</th>
        <th>Interaction</th><th>Actions</th><th>PubMed</th>
      </tr></thead>
      <tbody>
      {% for row in rows %}
      <tr>
        <td>{{ row.Chemical }}</td>
        <td>{{ row.Species }}</td>
        <td>{{ row.GeneSymbol }}</td>
        <td>{{ row.Interaction }}</td>
        <td>
          {% for badge in row.Badges %}
          <span class=`badge {{ badge.cls }} me-1`>{{ badge.txt }}</span>
          {% endfor %}
        </td>
        <td>
          {% for pid in row.PubMedIDs %}
          <a href=`https://pubmed.ncbi.nlm.nih.gov/{{pid}}` target=`_blank`>{{pid}}</a>{% if not loop.last %}, {% endif %}
          {% endfor %}
        </td>
      </tr>
      {% endfor %}
      </tbody>
    </table>
  </div>
  <script src=`https://code.jquery.com/jquery-3.7.1.min.js`></script>
  <script src=`https://cdn.datatables.net/1.13.6/js/jquery.dataTables.min.js`></script>
  <script src=`https://cdn.datatables.net/1.13.6/js/dataTables.bootstrap5.min.js`></script>
  <script>
    $(document).ready(function() {
      var table = $('#susTable').DataTable({
        pageLength: 10,
        lengthMenu: [5, 10, 20, 50]
      });
      $('#chemFilter').on('change', function() {
        table.column(0).search(this.value).draw();
      });
      $('#spFilter').on('change', function() {
        table.column(1).search(this.value).draw();
      });
    });
  </script>
</body>
</html>
".

(** The text between the tags of [TEMPLATE], in order. *)
Definition T_head : string := dq
"
<!doctype html>
<html lang=`en`>
<head>
  <meta charset=`utf-8`>
  <meta name=`viewport` content=`width=device-width, initial-scale=1`>
  <title>SUS-PECIES Database</title>
  <link href=`https://cdn.jsdelivr.net/npm/bootstrap@5.3.0/dist/css/bootstrap.min.css` rel=`stylesheet`>
  <link rel=`stylesheet` href=`https://cdn.datatables.net/1.13.6/css/dataTables.bootstrap5.min.css`>
</head>
<body>
  <nav class=`navbar navbar-expand-lg navbar-dark bg-dark mb-4`>
    <div class=`container-fluid`>
      <a class=`navbar-brand` href=`#`>SUS-PECIES</a>
      <span class=`navbar-text text-light`>A database for exploring chemical–species susceptibility interactions</span>
    </div>
  </nav>
  <div class=`container`>
    <div class=`row mb-3`>
      <div class=`col-md-4`>
        <select id=`chemFilter` class=`form-select`>
          <option value=``>All Chemicals</option>
          ".

Definition T_option_open : string := dq "
          <option value=`".
Definition T_option_mid : string := dq "`>".
Definition T_option_close : string := "</option>
          ".

Definition T_species : string := dq
"
        </select>
      </div>
      <div class=`col-md-4`>
        <select id=`spFilter` class=`form-select`>
          <option value=``>All Species</option>
          ".

Definition T_table : string := dq
"
        </select>
      </div>
    </div>
    <table id=`susTable` class=`table table-striped table-bordered` style=`width:100%`>
      <thead class=`table-dark`><tr>
        <th>Chemical</th><th>Species</th><th>Gene</th>
        <th>Interaction</th><th>Actions</th><th>PubMed</th>
      </tr></thead>
      <tbody>
      ".

Definition T_row_open : string := "
      <tr>
        <td>".
Definition T_cell : string := "</td>
        <td>".
Definition T_badges_open : string := "</td>
        <td>
          ".
Definition T_badge_open : string := dq "
          <span class=`badge ".
Definition T_badge_mid : string := dq " me-1`>".
Definition T_badge_close : string := "</span>
          ".
Definition T_pubmed_open : string := "
        </td>
        <td>
          ".
Definition T_link_open : string := dq "
          <a href=`https://pubmed.ncbi.nlm.nih.gov/".
Definition T_link_mid : string := dq "` target=`_blank`>".
Definition T_link_close : string := "</a>".
Definition T_link_sep : string := ", ".
Definition T_link_end : string := "
          ".
Definition T_row_close : string := "
        </td>
      </tr>
      ".

Definition T_tail : string := dq
"
      </tbody>
    </table>
  </div>
  <script src=`https://code.jquery.com/jquery-3.7.1.min.js`></script>
  <script src=`https://cdn.datatables.net/1.13.6/js/jquery.dataTables.min.js`></script>
  <script src=`https://cdn.datatables.net/1.13.6/js/dataTables.bootstrap5.min.js`></script>
  <script>
    $(document).ready(function() {
      var table = $('#susTable').DataTable({
        pageLength: 10,
        lengthMenu: [5, 10, 20, 50]
      });
      $('#chemFilter').on('change', function() {
        table.column(0).search(this.value).draw();
      });
      $('#spFilter').on('change', function() {
        table.column(1).search(this.value).draw();
      });
    });
  </script>
</body>
</html>".

(* ===================================================================== *)
(** ** sus.py: from the frame to the document (lines 129-151)

    The script works on the columns of the frame; a column operation applies
    to every row alike, so the frame is held as its list of rows, which is
    also what [df.to_dict(orient='records')] hands to the template. *)
(* ===================================================================== *)

(** One row of [df] after [rename] and the two derived columns. *)
Record Row := {
  Chemical : string;       (* ChemicalName *)
  ChemicalID : string;
  CasRN : string;
  GeneSymbol : string;
  GeneID : string;
  GeneForms : string;
  Species : string;        (* Organism *)
  OrganismID : string;
  Interaction : string;
  Actions : string;        (* InteractionActions *)
  PubMedIDs : list string;
  Badges : list Badge
}.

(** [str.split('|')] and [[pid for pid in lst if pid]] (line 142). *)
Definition split_pubmed (cell : string) : list string :=
  filter (fun pid => Py.truthy pid = true) (Py.split "|" cell).

(** The cells of a row are matched to [FIELD_NAMES] by position. *)
Definition to_row (cells : list string) : Row :=
  let col i := nth i cells "" in
  {| Chemical := col 0; ChemicalID := col 1; CasRN := col 2;
     GeneSymbol := col 3; GeneID := col 4; GeneForms := col 5;
     Species := col 6; OrganismID := col 7; Interaction := col 8;
     Actions := col 9;
     PubMedIDs := split_pubmed (col 10);
     Badges := parse_actions (col 9) |}.

(** Lines 145-146. *)
Definition chems (rows : list Row) : list string :=
  Py.sorted (Py.unique (map Chemical rows)).
Definition species_list (rows : list Row) : list string :=
  Py.sorted (Py.unique (map Species rows)).

(** [TEMPLATE] as compiled: the text between the tags, the expressions and
    the loops. *)
Section Render.
Variable env : Jinja.Environment.
Let out := Jinja.output env.

Definition render_option (v : string) (last : bool) : string :=
  T_option_open +:+ out v +:+ T_option_mid +:+ out v +:+ T_option_close.

Definition render_badge (badge : Badge) (last : bool) : string :=
  T_badge_open +:+ out (cls badge) +:+ T_badge_mid +:+ out (txt badge)
    +:+ T_badge_close.

Definition render_link (pid : string) (last : bool) : string :=
  T_link_open +:+ out pid +:+ T_link_mid +:+ out pid +:+ T_link_close
    +:+ (if negb last then T_link_sep else "") +:+ T_link_end.

Definition render_row (row : Row) (last : bool) : string :=
  T_row_open +:+ out (Chemical row)
    +:+ T_cell +:+ out (Species row)
    +:+ T_cell +:+ out (GeneSymbol row)
    +:+ T_cell +:+ out (Interaction row)
    +:+ T_badges_open +:+ Jinja.for_loop render_badge (Badges row)
    +:+ T_pubmed_open +:+ Jinja.for_loop render_link (PubMedIDs row)
    +:+ T_row_close.

(** [tmpl.render(rows=rows, chems=chems, species_list=species_list)] *)
Definition render (rows : list Row) (chems species_list : list string) : string :=
  T_head +:+ Jinja.for_loop render_option chems
    +:+ T_species +:+ Jinja.for_loop render_option species_list
    +:+ T_table +:+ Jinja.for_loop render_row rows
    +:+ T_tail.
End Render.

(** Lines 118-127: [df = pd.read_csv(...).fillna('')], on the text of the
    input file. *)
Definition read_df (text : string) : result (list (list string)) :=
  match Pandas.read_csv FIELD_NAMES text with
  | Raise e => Raise e
  | Ok df => Ok (Pandas.fillna "" df)
  end.

(** Lines 118-150: the rows handed to the template. *)
Definition load (text : string) : result (list Row) :=
  match read_df text with
  | Raise e => Raise e
  | Ok df => Ok (map to_row df)
  end.

Definition document (rows : list Row) : string :=
  render Jinja.default_environment rows (chems rows) (species_list rows).

(* ===================================================================== *)
(** ** The file system and the run of the script (lines 118, 154-157) *)
(* ===================================================================== *)

Record File := { readable : bool; writable : bool; content : string }.

Record World := {
  files : gmap string File;     (* regular files by path *)
  dirs : gset string;           (* directories by path *)
  stdout : list string          (* lines printed so far *)
}.

(** A statement of the script: it ends normally or raises, and may change
    the world before it does either. *)
Definition M (A : Type) : Type := World -> result A * World.

Definition ret {A} (a : A) : M A := fun w => (Ok a, w).
Definition raise {A} (e : exn) : M A := fun w => (Raise e, w).
Definition bind {A B} (m : M A) (k : A -> M B) : M B :=
  fun w =>
    match m w with
    | (Ok a, w') => k a w'
    | (Raise e, w') => (Raise e, w')
    end.
Definition lift {A} (r : result A) : M A := fun w => (r, w).

#[global] Instance M_ret : MRet M := @ret.
#[global] Instance M_bind : MBind M := fun A B k m => bind m k.

(** Reading a whole file, as [read_csv] does with the path it is given. *)
Definition read_file (path : string) : M string :=
  fun w =>
    match files w !! path with
    | None => (Raise FileNotFoundError, w)
    | Some f =>
        if readable f then (Ok (content f), w) else (Raise PermissionError, w)
    end.

(** [os.makedirs(path, exist_ok=True)] for a path of one component. *)
Definition makedirs (path : string) : M unit :=
  fun w =>
    match files w !! path with
    | Some _ => (Raise FileExistsError, w)
    | None =>
        (Ok tt, {| files := files w; dirs := {[ path ]} ∪ dirs w;
                   stdout := stdout w |})
    end.

(** [with open(path, 'w') as f: f.write(text)] *)
Definition write_file (path text : string) : M unit :=
  fun w =>
    if decide (path ∈ dirs w) then (Raise IsADirectoryError, w)
    else
      match files w !! path with
      | Some f =>
          if writable f then
            (Ok tt, {| files := <[ path := {| readable := readable f;
                                              writable := true;
                                              content := text |} ]> (files w);
                       dirs := dirs w; stdout := stdout w |})
          else (Raise PermissionError, w)
      | None =>
          (Ok tt, {| files := <[ path := {| readable := true; writable := true;
                                            content := text |} ]> (files w);
                     dirs := dirs w; stdout := stdout w |})
      end.

(** [print(line)].  The standard output of the model takes every text.
    On a console whose encoding lacks a character of the line the real
    [print] raises, which for the script is after the output file was
    written; no property below concludes from the exit status alone that
    nothing was written. *)
Definition print (line : string) : M unit :=
  fun w => (Ok tt, {| files := files w; dirs := dirs w;
                      stdout := stdout w ++ [line] |}).

(** The module body, top to bottom. *)
Definition script : M unit :=
  text ← read_file CTD_FILE;
  rows ← lift (load text);
  let html := document rows in
  makedirs OUTPUT_DIR;;
  write_file OUTPUT_HTML html;;
  print ("✅ Created " +:+ OUTPUT_HTML).

(** The exit status of the interpreter: 0, or 1 after an exception that
    nothing caught. *)
Definition exit_status {A} (r : result A) : nat :=
  match r with Ok _ => 0 | Raise _ => 1 end.

Definition main (w : World) : nat * World :=
  let (r, w') := script w in (exit_status r, w').

(* ===================================================================== *)
(** ** Words of the specification

    The notions the properties below are stated in.  None of them is used by
    the program above. *)
(* ===================================================================== *)

(** *** Cells and badges *)

(** The non-empty pipe-delimited segments of a cell. *)
Definition segments (cell : string) : list string :=
  filter (fun seg => seg ≠ "") (Py.split "|" cell).

(** The three badge categories and the style each is shown in. *)
Inductive category := increase | decrease | other.

Definition category_cls (c : category) : string :=
  match c with
  | increase => "bg-success"
  | decrease => "bg-danger"
  | other => "bg-secondary"
  end.

(** The lowercased form of [seg] starts with [p]. *)
Definition begins_with (p seg : string) : Prop :=
  ∃ rest, Py.lower seg = p +:+ rest.

Inductive has_category (seg : string) : category → Prop :=
  | cat_increase : begins_with "increases" seg → has_category seg increase
  | cat_decrease : begins_with "decreases" seg → has_category seg decrease
  | cat_other :
      ¬ begins_with "increases" seg → ¬ begins_with "decreases" seg →
      has_category seg other.

Definition all_space (s : string) : Prop :=
  Forall (fun c => Py.isspace c = true) (list_ascii_of_string s).

(** What a label does to one character of its segment. *)
Definition caret_to_space (c : ascii) : ascii :=
  if Ascii.eqb c "^" then " "%char else c.

(** The badge [parse_actions] appends for a non-empty segment. *)
Definition badge_of (act : string) : Badge :=
  {| cls := if Py.startswith (Py.lower act) "increases" then "bg-success"
            else if Py.startswith (Py.lower act) "decreases" then "bg-danger"
            else "bg-secondary";
     txt := Py.replace "^" " " act |}.

(** *** Vocabularies *)

(** [v] is the vocabulary of [values]: ascending, without repetition, with
    the same members. *)
Definition is_vocabulary (v values : list string) : Prop :=
  StronglySorted String.le v ∧ NoDup v ∧ ∀ x, x ∈ v ↔ x ∈ values.

(** *** The file system *)

(** The input file is absent, or present and not readable. *)
Definition input_unavailable (w : World) : Prop :=
  (files w !! CTD_FILE = None)
  ∨ ∃ f, files w !! CTD_FILE = Some f ∧ readable f = false.

(** Nothing stands in the way of the output: no file has the name of the
    output directory, no directory the name of the output file, and an
    output file already there may be written. *)
Definition output_writable (w : World) : Prop :=
  (files w !! OUTPUT_DIR = None)
  ∧ (OUTPUT_HTML ∉ dirs w)
  ∧ ∀ g, files w !! OUTPUT_HTML = Some g → writable g = true.

(** *** Lines and fields of the input *)

Definition LF : string := String "010"%char "".
Definition QUOTE : string := String Csv.quotechar "".

(** A line of plain text: no double quote, no CR, no LF. *)
Definition plain (l : string) : Prop :=
  Py.contains Csv.quotechar l = false
  ∧ Py.contains "013"%char l = false
  ∧ Py.contains "010"%char l = false.

(** The text of a file made of the given lines, each ended by LF. *)
Definition lines_text (ls : list string) : string :=
  foldr (fun l text => l +:+ LF +:+ text) "" ls.

(** The comma-separated fields of a plain line; an empty line has none. *)
Definition line_fields (l : string) : list string :=
  match l with
  | EmptyString => []
  | String _ _ => Py.split "," l
  end.

(** The fields [l] with [f] put in front of the first of them. *)
Definition glue (f : string) (l : list string) : list string :=
  match l with
  | [] => [f]
  | x :: xs => (f +:+ x) :: xs
  end.

Definition last_field (pre : string) : string := List.last (Py.split "," pre) "".
Definition first_field (post : string) : string := hd "" (Py.split "," post).

(** A plain line that starts with the comment marker, and whose first field
    is not one of the NA tokens. *)
Definition comment_line (l : string) : Prop :=
  plain l ∧ ∃ c, l = String "#" c
    ∧ Py.mem (String "#" (first_field c)) Pandas.STR_NA_VALUES = false.

(** A field as it reads in the frame: an NA token reads as the empty
    string. *)
Definition na_to_empty (s : string) : string :=
  if Py.mem s Pandas.STR_NA_VALUES then "" else s.

(** [l], filled with empty strings up to [n] fields. *)
Definition pad (n : nat) (l : list string) : list string :=
  l ++ replicate (n - length l) "".

(** *** The document *)

Definition default_env : Jinja.Environment := Jinja.default_environment.

(** The environment with escaping on, to compare with. *)
Definition escaping : Jinja.Environment := {| Jinja.autoescape := true |}.

(** The values a row puts into the document. *)
Definition interpolated (row : Row) : list string :=
  [Chemical row; Species row; GeneSymbol row; Interaction row]
  ++ flat_map (fun b => [cls b; txt b]) (Badges row)
  ++ PubMedIDs row.

(** The characters that [markupsafe.escape] rewrites. *)
Definition markup (c : ascii) : bool :=
  Ascii.eqb c "&" || Ascii.eqb c "<" || Ascii.eqb c ">" || Ascii.eqb c "'"
  || Ascii.eqb c "034".

Fixpoint markup_free (s : string) : bool :=
  match s with
  | EmptyString => true
  | String c s' => negb (markup c) && markup_free s'
  end.

Definition row_markup_free (row : Row) : Prop :=
  Forall (fun v => markup_free v = true) (interpolated row).

Definition tag_free (row : Row) : Prop :=
  Forall (fun v => Py.contains "<" v = false) (interpolated row).

(** [pat] occurs in [s]. *)
Fixpoint occurs (pat s : string) : bool :=
  String.prefix pat s
  || match s with
     | EmptyString => false
     | String _ s' => occurs pat s'
     end.

(** The number of places of [s] where [pat] starts. *)
Fixpoint count (pat s : string) : nat :=
  match s with
  | EmptyString => 0
  | String _ s' => (if String.prefix pat s then 1 else 0) + count pat s'
  end.

(** Some non-empty suffix of [s] is a proper prefix of [pat]: a match of
    [pat] may have begun that the text after [s] could complete. *)
Fixpoint open_suffix (pat s : string) : bool :=
  match s with
  | EmptyString => false
  | String _ s' =>
      (String.prefix s pat && (String.length s <? String.length pat))
      || open_suffix pat s'
  end.

(** [s] holds [n] matches of [pat] and leaves none open. *)
Definition tame (pat s : string) (n : nat) : Prop :=
  open_suffix pat s = false ∧ count pat s = n.

(** *** Inputs used as examples *)

Definition caffeine_line : string :=
  "Caffeine,D002110,58-08-2,CYP1A2,1544,protein,Homo sapiens,9606,increases^activity,increases^activity^of,12345|67890".

(** A comment line, then one record. *)
Definition caffeine_text : string := "#header" +:+ LF +:+ caffeine_line +:+ LF.

Definition caffeine_rows : list Row :=
  [ {| Chemical := "Caffeine"; ChemicalID := "D002110"; CasRN := "58-08-2";
       GeneSymbol := "CYP1A2"; GeneID := "1544"; GeneForms := "protein";
       Species := "Homo sapiens"; OrganismID := "9606";
       Interaction := "increases^activity";
       Actions := "increases^activity^of";
       PubMedIDs := ["12345"; "67890"];
       Badges := [ {| cls := "bg-success"; txt := "increases activity of" |} ] |} ].

(** A chemical name that is the text of a row tag. *)
Definition tr_text : string := "<tr>,b" +:+ LF.
Definition tr_rows : list Row := [to_row (pad 11 ["<tr>"; "b"])].

(** A row of twelve fields after a row of eleven. *)
Definition twelve_fields_text : string :=
  "a,b,c,d,e,f,g,h,i,j,k" +:+ LF +:+ "a,b,c,d,e,f,g,h,i,j,k,l" +:+ LF.

(** A chemical name that is markup. *)
Definition markup_text : string :=
  "<script>alert(1)</script>,D1,,G,1,protein,Homo sapiens,9606,x,increases^expression,1" +:+ LF.

Definition markup_rows : list Row :=
  [ to_row ["<script>alert(1)</script>"; "D1"; ""; "G"; "1"; "protein";
            "Homo sapiens"; "9606"; "x"; "increases^expression"; "1"] ].

(** The marker, then a field that opens a quote which the next line closes;
    and the same text with the first line cut at the marker. *)
Definition swallowed_text : string :=
  "x#," +:+ QUOTE +:+ "y" +:+ LF +:+ "z" +:+ QUOTE +:+ ",w" +:+ LF.
Definition cut_text : string :=
  "x" +:+ LF +:+ "z" +:+ QUOTE +:+ ",w" +:+ LF.

Definition file (text : string) : File :=
  {| readable := true; writable := true; content := text |}.

(** A world with nothing in it, and worlds that hold only the input file. *)
Definition empty_world : World :=
  {| files := ∅; dirs := ∅; stdout := [] |}.
Definition world_with (text : string) : World :=
  {| files := {[ CTD_FILE := file text ]}; dirs := ∅; stdout := [] |}.

(** *** Words for the further properties *)

Definition CR : string := String "013"%char "".

(** Every character of [s] passes [p]. *)
Fixpoint all_chars (p : ascii -> bool) (s : string) : bool :=
  match s with
  | EmptyString => true
  | String c s' => p c && all_chars p s'
  end.

Definition is_ascii (s : string) : Prop :=
  all_chars (fun c => nat_of_ascii c <? 128) s = true.

(** A lower-case letter, a digit or the underscore. *)
Definition safe_char (c : ascii) : bool :=
  let n := nat_of_ascii c in
  ((97 <=? n) && (n <=? 122)) || ((48 <=? n) && (n <=? 57)) || (n =? 95).

(** No CR and no LF. *)
Definition one_line (s : string) : Prop :=
  Py.contains "013"%char s = false ∧ Py.contains "010"%char s = false.

(** A field written between double quotes, each double quote of it written
    twice. *)
Fixpoint double_quotes (f : string) : string :=
  match f with
  | EmptyString => EmptyString
  | String c f' =>
      if Ascii.eqb c Csv.quotechar then String c (String c (double_quotes f'))
      else String c (double_quotes f')
  end.

Definition quoted (f : string) : string :=
  QUOTE +:+ double_quotes f +:+ QUOTE.

(** [cell] is a way to write the field [f] in a line: as it is, when [f] is
    plain and has no comma, or quoted. *)
Definition writes (f cell : string) : Prop :=
  (cell = f ∧ plain f ∧ Py.contains "," f = false)
  ∨ (cell = quoted f ∧ one_line f).

(** A value that the parser hands on unchanged: no comment marker, and not
    an NA token, the empty string apart. *)
Definition kept (f : string) : Prop :=
  Py.contains "#" f = false ∧ (f = "" ∨ Py.mem f Pandas.STR_NA_VALUES = false).


(** The elements of the document for one value. *)
Definition option_html (v : string) : string :=
  dq "<option value=`" +:+ v +:+ dq "`>" +:+ v +:+ "</option>".
Definition cell_html (v : string) : string :=
  "<td>" +:+ v +:+ "</td>".
Definition badge_html (b : Badge) : string :=
  dq "<span class=`badge " +:+ cls b +:+ dq " me-1`>" +:+ txt b +:+ "</span>".
Definition link_html (pid : string) : string :=
  dq "<a href=`https://pubmed.ncbi.nlm.nih.gov/" +:+ pid
  +:+ dq "` target=`_blank`>" +:+ pid +:+ "</a>".

(** The worlds after the steps of a run that got as far as the output. *)
Definition with_dir (w : World) : World :=
  {| files := files w; dirs := {[ OUTPUT_DIR ]} ∪ dirs w; stdout := stdout w |}.

(** The line that [print] writes on success. *)
Definition confirmation : string := "✅ Created " +:+ OUTPUT_HTML.

(** The world after a run that wrote [text]. *)
Definition with_output (w : World) (text : string) : World :=
  {| files := <[ OUTPUT_HTML :=
                  {| readable := from_option readable true (files w !! OUTPUT_HTML);
                     writable := true; content := text |} ]> (files w);
     dirs := {[ OUTPUT_DIR ]} ∪ dirs w;
     stdout := stdout w ++ [confirmation] |}.

(** A world with the input of the example, the output directory, and in
    it an output file that may not be written. *)
Definition read_only_output_world : World :=
  {| files := {[ CTD_FILE := file caffeine_text;
                 OUTPUT_HTML := {| readable := true; writable := false;
                                   content := "old" |} ]};
     dirs := {[ OUTPUT_DIR ]}; stdout := [] |}.

(** The run got as far as the output file: the input was readable and
    parsed, and the output file of [w'] holds the document of its rows, in
    the output directory. *)
Definition document_written (w w' : World) : Prop :=
  ∃ f rows,
    files w !! CTD_FILE = Some f ∧ readable f = true
    ∧ load (content f) = Ok rows
    ∧ output_writable w
    ∧ content <$> (files w' !! OUTPUT_HTML) = Some (document rows)
    ∧ OUTPUT_DIR ∈ dirs w'.

(** [csv.field_size_limit()] as the script leaves it, and a text that no
    field made from it can exceed: a field holds at most that many
    characters, and a character takes at least one byte. *)
Definition field_size_limit : N := 131072%N.
Definition within_limit (s : string) : Prop :=
  (N.of_nat (String.length s) <= field_size_limit)%N.

(** A text that the csv reader takes in whatever is in it: within the
    limit, and without the character NUL, which the reader refused
    before Python 3.11. *)
Definition ordinary (s : string) : Prop :=
  within_limit s ∧ Py.contains "000"%char s = false.


(** The characters of a part of a line, without the end-of-line signal
    that [Csv.process_line] sends after the last one. *)
Fixpoint feed (r : Csv.Reader) (s : string) : result Csv.Reader :=
  match s with
  | EmptyString => Ok r
  | String c s' =>
      match Csv.parse_process_char r (Csv.Char c) with
      | Ok r' => feed r' s'
      | Raise e => Raise e
      end
  end.

(** The text of a file made of the given lines, each with its own ending. *)
Definition text_of (ls : list (string * string)) : string :=
  foldr (fun le text => le.1 +:+ le.2 +:+ text) "" ls.

(** A place of a plain line where a field starts: the start of the line,
    or after a comma. *)
Definition field_start (pre : string) : Prop :=
  pre = "" ∨ ∃ p, plain p ∧ pre = p +:+ ",".

(** The texts that open a badge and a link, and the text between two
    links. *)
Definition badge_tag : string := Eval cbv in dq "<span class=`badge ".
Definition link_tag : string := "<a href=".
Definition link_separator : string := "</a>, ".

(* ===================================================================== *)
(** ** Strings *)
(* ===================================================================== *)
Lemma app_nil_l' s : "" +:+ s = s.
Proof. done. Qed.

Lemma app_cons c a b : String c a +:+ b = String c (a +:+ b).
Proof. done. Qed.

Lemma app_nil_r' s : s +:+ "" = s.
Proof. induction s as [|c s IH]; [done|]. by rewrite app_cons, IH. Qed.

Lemma app_assoc' a b c : (a +:+ b) +:+ c = a +:+ (b +:+ c).
Proof. induction a as [|d a IH]; [done|]. by rewrite !app_cons, IH. Qed.

Lemma length_app' a b : String.length (a +:+ b) = String.length a + String.length b.
Proof. induction a as [|c a IH]; [done|]. rewrite app_cons. cbn. by rewrite IH. Qed.

Lemma contains_app c a b :
  Py.contains c (a +:+ b) = Py.contains c a || Py.contains c b.
Proof.
  induction a as [|d a IH]; [done|]. change (String d a +:+ b) with (String d (a +:+ b)).
  simpl. rewrite IH. by rewrite orb_assoc.
Qed.

Lemma contains_true_app c a b : Py.contains c (a +:+ String c b) = true.
Proof.
  induction a as [|d a IH].
  - rewrite app_nil_l'. cbn. by rewrite Ascii.eqb_refl.
  - rewrite app_cons. cbn. rewrite IH. apply orb_true_r.
Qed.

Lemma contains_before c s : Py.contains c s = false → Py.before c s = s.
Proof.
  induction s as [|d s IH]; cbn; [done|].
  destruct (Ascii.eqb d c); [done|]. intros H. by rewrite IH.
Qed.

Lemma before_app c a b :
  Py.contains c a = false → Py.before c (a +:+ String c b) = a.
Proof.
  induction a as [|d a IH].
  - rewrite app_nil_l'. cbn. by rewrite Ascii.eqb_refl.
  - rewrite app_cons. cbn. destruct (Ascii.eqb d c); [done|]. intros H. by rewrite IH.
Qed.

Lemma startswith_iff s p : Py.startswith s p = true ↔ ∃ rest, s = p +:+ rest.
Proof.
  unfold Py.startswith. revert s. induction p as [|a p IH]; intros s.
  - destruct s; simpl; split; eauto.
  - destruct s as [|c s]; simpl.
    + split; [done|]. by intros [? ?].
    + destruct (ascii_dec a c) as [->|Hne].
      * rewrite IH. split; intros [rest H]; exists rest.
        -- by rewrite H.
        -- by injection H.
      * split; [done|]. intros [rest H]. injection H as H1 H2. congruence.
Qed.

Lemma prefix_cons a p c s :
  String.prefix (String a p) (String c s) =
  if Ascii.eqb a c then String.prefix p s else false.
Proof.
  cbn [String.prefix]. destruct (ascii_dec a c) as [->|Hne].
  - by rewrite Ascii.eqb_refl.
  - by apply Ascii.eqb_neq in Hne as ->.
Qed.

Lemma prefix_nil s : String.prefix "" s = true.
Proof. by destruct s. Qed.

Lemma replace_length old new s :
  String.length (Py.replace old new s) = String.length s.
Proof. induction s; simpl; congruence. Qed.

Lemma replace_get s i :
  String.get i (Py.replace "^" " " s) = caret_to_space <$> String.get i s.
Proof.
  revert i. induction s as [|c s IH]; intros i; simpl; [done|].
  destruct i; simpl; [done|]. apply IH.
Qed.

Lemma isspace_lower c : Py.isspace c = true → Py.lower_char c = c.
Proof. destruct c as [[] [] [] [] [] [] [] []]; vm_compute; congruence. Qed.

Lemma isspace_contains_pipe ws : all_space ws → Py.contains "|" ws = false.
Proof.
  unfold all_space. induction ws as [|w ws IH]; simpl; [done|].
  intros H. inversion H as [|?? Hw Hws]; subst. rewrite IH by done.
  destruct (Ascii.eqb_spec w "|") as [->|]; [discriminate|done].
Qed.

(** *** split and join *)
Lemma split_not_nil sep s : Py.split sep s ≠ [].
Proof.
  destruct s as [|c s]; simpl; [done|].
  destruct (Ascii.eqb c sep); [done|]. by destruct (Py.split sep s).
Qed.

Lemma split_no_sep sep s : Py.contains sep s = false → Py.split sep s = [s].
Proof.
  induction s as [|c s IH]; simpl; [done|].
  destruct (Ascii.eqb c sep); simpl; [done|]. intros H. by rewrite IH.
Qed.

Lemma split_app_sep sep a b :
  Py.contains sep a = false →
  Py.split sep (a +:+ String sep b) = a :: Py.split sep b.
Proof.
  induction a as [|c a IH]; simpl.
  - by rewrite Ascii.eqb_refl.
  - destruct (Ascii.eqb c sep); simpl; [done|]. intros H. by rewrite IH.
Qed.

Lemma split_segments_no_sep sep s :
  Forall (fun seg => Py.contains sep seg = false) (Py.split sep s).
Proof.
  induction s as [|c s IH]; simpl; [by repeat constructor|].
  destruct (Ascii.eqb c sep) eqn:E; [by constructor|].
  destruct (Py.split sep s) as [|seg segs]; [by repeat (constructor; simpl; rewrite ?E)|].
  inversion IH; subst. constructor; [|done]. simpl. by rewrite E.
Qed.

Lemma split_clean c sep s :
  Py.contains c s = false →
  Forall (fun f => Py.contains c f = false) (Py.split sep s).
Proof.
  induction s as [|d s IH]; cbn; [by repeat constructor|].
  intros [Hd Hs]%orb_false_iff. specialize (IH Hs).
  destruct (Ascii.eqb d sep).
  - by constructor.
  - destruct (Py.split sep s) as [|x xs]; [by repeat constructor; cbn; rewrite Hd|].
    inversion IH; subst. constructor; [|done]. cbn. by rewrite Hd.
Qed.

Lemma split_join sep l :
  l ≠ [] → Forall (fun seg => Py.contains sep seg = false) l →
  Py.split sep (Py.join sep l) = l.
Proof.
  induction l as [|x l IH]; [done|]. intros _ H. inversion H as [|?? Hx Hl]; subst.
  destruct l as [|y l].
  - simpl. by apply split_no_sep.
  - change (Py.join sep (x :: y :: l)) with (x +:+ String sep (Py.join sep (y :: l))).
    rewrite split_app_sep by done. f_equal. by apply IH.
Qed.

Lemma glue_nil sep l : glue "" (Py.split sep l) = Py.split sep l.
Proof. pose proof (split_not_nil sep l). by destruct (Py.split sep l). Qed.

Lemma split_app sep a b :
  Py.split sep (a +:+ b) =
  removelast (Py.split sep a) ++ glue (List.last (Py.split sep a) "") (Py.split sep b).
Proof.
  induction a as [|c a IH].
  - rewrite app_nil_l'. cbn. by rewrite glue_nil.
  - rewrite app_cons. cbn [Py.split]. rewrite IH.
    pose proof (split_not_nil sep a) as Hn.
    destruct (Ascii.eqb c sep).
    + by destruct (Py.split sep a).
    + destruct (Py.split sep a) as [|x [|x2 xs]]; [done| |].
      * cbn. pose proof (split_not_nil sep b). by destruct (Py.split sep b).
      * done.
Qed.

(* ===================================================================== *)
(** ** parse_actions and the PubMed split *)
(* ===================================================================== *)

Example parse_actions_example :
  parse_actions "increases^activity|decreases^expression||affects^binding" =
  [ {| cls := "bg-success"; txt := "increases activity" |};
    {| cls := "bg-danger"; txt := "decreases expression" |};
    {| cls := "bg-secondary"; txt := "affects binding" |} ].
Proof. reflexivity. Qed.

(** The loop is a map over the non-empty segments. *)
Lemma parse_actions_fold acc l :
  fold_left parse_actions_step l acc =
  acc ++ map badge_of (filter (fun seg => seg ≠ "") l).
Proof.
  revert acc. induction l as [|act l IH]; intros acc.
  - simpl. by rewrite app_nil_r.
  - cbn [fold_left]. rewrite IH. destruct act as [|c act].
    + rewrite filter_cons_False by (by intros H). done.
    + rewrite filter_cons_True by done.
      unfold parse_actions_step. cbn [Py.truthy negb map].
      by rewrite <- app_assoc.
Qed.

Lemma parse_actions_segments cell :
  parse_actions cell = map badge_of (segments cell).
Proof. unfold parse_actions. by rewrite parse_actions_fold. Qed.

Lemma split_pubmed_segments cell : split_pubmed cell = segments cell.
Proof.
  unfold split_pubmed, segments. apply list_filter_iff.
  intros pid. by destruct pid.
Qed.

Lemma segments_no_sep cell :
  Forall (fun seg => Py.contains "|" seg = false) (segments cell).
Proof.
  unfold segments. apply list.Forall_forall. intros seg Hin.
  apply list_elem_of_filter in Hin as [_ Hin].
  pose proof (split_segments_no_sep "|" cell) as H.
  rewrite list.Forall_forall in H. by apply H.
Qed.

Lemma segments_single tok :
  tok ≠ "" → Py.contains "|" tok = false → segments tok = [tok].
Proof.
  intros Hne Hp. unfold segments. rewrite split_no_sep by done.
  by rewrite filter_cons_True.
Qed.

Lemma segments_join cell :
  segments (Py.join "|" (segments cell)) = segments cell.
Proof.
  destruct (segments cell) as [|x l] eqn:E; [done|].
  unfold segments at 1. rewrite split_join.
  - rewrite <- E. unfold segments. by rewrite list_filter_filter, (list_filter_iff _ (fun seg => seg ≠ "")) by tauto.
  - done.
  - rewrite <- E. apply segments_no_sep.
Qed.

Lemma begins_with_startswith p seg :
  begins_with p seg ↔ Py.startswith (Py.lower seg) p = true.
Proof. unfold begins_with. by rewrite startswith_iff. Qed.

Lemma badge_of_category seg :
  ∃ c, has_category seg c ∧ cls (badge_of seg) = category_cls c.
Proof.
  unfold badge_of; simpl.
  destruct (Py.startswith (Py.lower seg) "increases") eqn:Ei.
  { exists increase. split; [|done]. constructor. by apply begins_with_startswith. }
  destruct (Py.startswith (Py.lower seg) "decreases") eqn:Ed.
  { exists decrease. split; [|done]. constructor. by apply begins_with_startswith. }
  exists other. split; [|done].
  constructor; rewrite begins_with_startswith; congruence.
Qed.

(** A segment has one category only. *)
Lemma has_category_functional seg c1 c2 :
  has_category seg c1 → has_category seg c2 → c1 = c2.
Proof.
  intros H1 H2.
  destruct H1 as [I1|D1|N1 N1'], H2 as [I2|D2|N2 N2']; try done.
  - destruct I1 as [r1 H1], D2 as [r2 H2]. rewrite H1 in H2. discriminate.
  - destruct D1 as [r1 H1], I2 as [r2 H2]. rewrite H1 in H2. discriminate.
Qed.

Lemma prefix_trailing_space p seg ws :
  Forall (fun c => Py.isspace c = false) (list_ascii_of_string p) →
  all_space ws →
  String.prefix p (Py.lower (seg +:+ ws)) = String.prefix p (Py.lower seg).
Proof.
  intros Hp Hws. revert seg Hp. induction p as [|a p IH]; intros seg Hp.
  - by destruct (Py.lower (seg +:+ ws)), (Py.lower seg).
  - inversion Hp as [|?? Ha Hp']; subst. destruct seg as [|c seg].
    + change ("" +:+ ws) with ws. destruct ws as [|w ws]; [done|].
      inversion Hws as [|?? Hw _]; subst. simpl.
      rewrite (isspace_lower w Hw). destruct (ascii_dec a w); [congruence|done].
    + simpl. change (String.append seg ws) with (seg +:+ ws).
      destruct (ascii_dec a (Py.lower_char c)); [|done]. by apply IH.
Qed.

Lemma leading_space_no_prefix c seg a p :
  Py.isspace c = true → Py.isspace a = false →
  Py.startswith (Py.lower (String c seg)) (String a p) = false.
Proof.
  intros Hc Ha. destruct (Py.startswith _ _) eqn:E; [|done].
  apply startswith_iff in E as [rest E]. cbn [Py.lower] in E.
  rewrite (isspace_lower c Hc) in E. injection E as E _. congruence.
Qed.

Lemma leading_space_cls c seg :
  Py.isspace c = true → cls (badge_of (String c seg)) = "bg-secondary".
Proof.
  intros Hc. unfold badge_of. cbn [cls].
  by rewrite !leading_space_no_prefix.
Qed.

(** C1, as the code has it.  For every cell, the badges of
    [parse_actions] are those of its non-empty segments, in order, and the
    style of each is the one of the category that the lowercased segment
    begins with: increases, decreases, or neither.  The segment is tested as
    it stands: white space after it leaves the category as it is, and a
    segment that begins with white space is in the category other. *)
Theorem parse_actions_category (cell : string) :
  Forall2 (fun seg badge => ∃ c, has_category seg c ∧ cls badge = category_cls c)
          (segments cell) (parse_actions cell)
  ∧ (∀ seg ws, seg ≠ "" → Py.contains "|" seg = false → all_space ws →
       map cls (parse_actions (seg +:+ ws)) = map cls (parse_actions seg))
  ∧ (∀ c seg, Py.isspace c = true → Py.contains "|" seg = false →
       map cls (parse_actions (String c seg)) = [category_cls other]).
Proof.
  split; [|split].
  - rewrite parse_actions_segments. apply Forall2_fmap_r, Forall_Forall2_diag.
    apply list.Forall_forall. intros seg _. apply badge_of_category.
  - intros seg ws Hne Hp Hws.
    rewrite !parse_actions_segments, !segments_single; try done.
    + simpl. f_equal. unfold Py.startswith.
      by rewrite !prefix_trailing_space by (done || by repeat constructor).
    + by destruct seg.
    + rewrite contains_app, Hp. by apply isspace_contains_pipe.
  - intros c seg Hc Hp. rewrite parse_actions_segments, segments_single.
    + simpl. f_equal. by apply leading_space_cls.
    + done.
    + simpl. rewrite Hp. destruct (Ascii.eqb_spec c "|") as [->|]; [discriminate|done].
Qed.

Lemma parse_actions_category_witness :
  Forall2 (fun seg badge => ∃ c, has_category seg c ∧ cls badge = category_cls c)
          (segments "Increases^expression|decreases^activity")
          (parse_actions "Increases^expression|decreases^activity")
  ∧ map cls (parse_actions ("Increases^expression" +:+ "  "))
    = map cls (parse_actions "Increases^expression")
  ∧ map cls (parse_actions (String " " "increases^expression"))
    = [category_cls other].
Proof.
  destruct (parse_actions_category "Increases^expression|decreases^activity")
    as (H1 & H2 & H3).
  split; [exact H1|]. split.
  - apply H2; [discriminate | reflexivity | repeat constructor].
  - apply H3; reflexivity.
Defined.

(** C1 as stated fails: the token of the claim, with a space in front of
    Increases, gets the style of the category other, not increase. *)
Lemma leading_space_is_other :
  map cls (parse_actions " Increases activity") = [category_cls other]
  ∧ map cls (parse_actions " Increases activity") ≠ [category_cls increase].
Proof. split; [reflexivity|]. intros H. vm_compute in H. discriminate. Qed.

(** C5.  The label of a badge is its segment with every caret turned into
    one space and every other character kept: same length, and at each
    position the character of the segment, or a space for a caret.  A cell
    that is one token (not empty, no pipe) gives exactly one badge, labelled
    so. *)
Theorem badge_label (cell : string) :
  Forall2 (fun seg badge =>
             String.length (txt badge) = String.length seg ∧
             ∀ i, String.get i (txt badge) = caret_to_space <$> String.get i seg)
          (segments cell) (parse_actions cell)
  ∧ (cell ≠ "" → Py.contains "|" cell = false →
     ∃ badge, parse_actions cell = [badge] ∧
       String.length (txt badge) = String.length cell ∧
       ∀ i, String.get i (txt badge) = caret_to_space <$> String.get i cell).
Proof.
  split.
  - rewrite parse_actions_segments. apply Forall2_fmap_r, Forall_Forall2_diag.
    apply list.Forall_forall. intros seg _. split.
    + apply replace_length.
    + apply replace_get.
  - intros Hne Hp. exists (badge_of cell).
    rewrite parse_actions_segments, segments_single by done.
    split; [done|]. split; [apply replace_length|apply replace_get].
Qed.

Lemma badge_label_witness :
  ∃ badge, parse_actions "increases^Activity of" = [badge]
    ∧ String.length (txt badge) = String.length "increases^Activity of"
    ∧ ∀ i, String.get i (txt badge)
           = caret_to_space <$> String.get i "increases^Activity of".
Proof.
  destruct (badge_label "increases^Activity of") as [_ H].
  apply H; [discriminate | reflexivity].
Defined.

(** C8.  Splitting on the pipe and dropping the empty segments is
    idempotent: joining the segments with a pipe and splitting again gives
    the same segments; so for the PubMed split of line 142, and so for the
    badges of [parse_actions]. *)
Theorem split_discard_idempotent (cell : string) :
  segments (Py.join "|" (segments cell)) = segments cell
  ∧ split_pubmed (Py.join "|" (split_pubmed cell)) = split_pubmed cell
  ∧ parse_actions (Py.join "|" (segments cell)) = parse_actions cell.
Proof.
  split; [apply segments_join|]. split.
  - rewrite !split_pubmed_segments. apply segments_join.
  - by rewrite !parse_actions_segments, segments_join.
Qed.

(* ===================================================================== *)
(** ** The vocabularies *)
(* ===================================================================== *)
Lemma mem_elem_of x l : Py.mem x l = true ↔ x ∈ l.
Proof.
  unfold Py.mem. rewrite existsb_exists. split.
  - intros (y & Hin & E). apply String.eqb_eq in E as ->. by apply list_elem_of_In.
  - intros Hin. exists x. split; [by apply list_elem_of_In|apply String.eqb_refl].
Qed.

Lemma unique_from_elem_of seen l x :
  x ∈ Py.unique_from seen l ↔ x ∈ l ∧ x ∉ seen.
Proof.
  revert seen. induction l as [|y l IH]; intros seen; simpl.
  - rewrite !elem_of_nil. tauto.
  - destruct (Py.mem y seen) eqn:E.
    + apply mem_elem_of in E. rewrite IH, elem_of_cons. split; [tauto|].
      intros [[->|H] Hn]; [done|tauto].
    + assert (y ∉ seen) by (rewrite <- mem_elem_of; congruence).
      rewrite !elem_of_cons, IH, elem_of_cons.
      destruct (decide (x = y)) as [->|]; [tauto|]. tauto.
Qed.

Lemma unique_from_NoDup seen l : NoDup (Py.unique_from seen l).
Proof.
  revert seen. induction l as [|y l IH]; intros seen; simpl; [constructor|].
  destruct (Py.mem y seen); [apply IH|].
  constructor; [|apply IH]. rewrite unique_from_elem_of, elem_of_cons. tauto.
Qed.

Lemma sorted_unique_spec (l : list string) :
  StronglySorted String.le (Py.sorted (Py.unique l))
  ∧ NoDup (Py.sorted (Py.unique l))
  ∧ ∀ x, x ∈ Py.sorted (Py.unique l) ↔ x ∈ l.
Proof.
  unfold Py.sorted, Py.unique. split; [|split].
  - apply StronglySorted_merge_sort; apply _.
  - rewrite merge_sort_Permutation. apply unique_from_NoDup.
  - intros x. rewrite merge_sort_Permutation, unique_from_elem_of, elem_of_nil. tauto.
Qed.

Lemma chems_elem_of rows x :
  x ∈ chems rows ↔ ∃ r, r ∈ rows ∧ Chemical r = x.
Proof.
  unfold chems. destruct (sorted_unique_spec (map Chemical rows)) as (_ & _ & H).
  rewrite H, list_elem_of_fmap. split.
  - intros (r & -> & Hr). eauto.
  - intros (r & Hr & <-). eauto.
Qed.

Lemma species_list_elem_of rows x :
  x ∈ species_list rows ↔ ∃ r, r ∈ rows ∧ Species r = x.
Proof.
  unfold species_list. destruct (sorted_unique_spec (map Species rows)) as (_ & _ & H).
  rewrite H, list_elem_of_fmap. split.
  - intros (r & -> & Hr). eauto.
  - intros (r & Hr & <-). eauto.
Qed.

(** C6.  For every list of rows, each of the two vocabularies is in
    ascending order of code points, has no entry twice, and has exactly the
    values of its column as members; so the empty string is an entry as soon
    as one row has an empty Chemical, or an empty Species. *)
Theorem vocabulary_sorted_distinct (rows : list Row) :
  is_vocabulary (chems rows) (map Chemical rows)
  ∧ is_vocabulary (species_list rows) (map Species rows)
  ∧ ((∃ r, r ∈ rows ∧ Chemical r = "") → "" ∈ chems rows)
  ∧ ((∃ r, r ∈ rows ∧ Species r = "") → "" ∈ species_list rows).
Proof.
  split; [apply sorted_unique_spec|]. split; [apply sorted_unique_spec|].
  split; intros H.
  - by apply chems_elem_of.
  - by apply species_list_elem_of.
Qed.

Lemma vocabulary_sorted_distinct_witness :
  "" ∈ chems (to_row [] :: caffeine_rows ++ caffeine_rows)
  ∧ "" ∈ species_list (to_row [] :: caffeine_rows ++ caffeine_rows).
Proof.
  destruct (vocabulary_sorted_distinct (to_row [] :: caffeine_rows ++ caffeine_rows))
    as (_ & _ & H1 & H2).
  split.
  - apply H1. exists (to_row []). split; [apply list_elem_of_here|reflexivity].
  - apply H2. exists (to_row []). split; [apply list_elem_of_here|reflexivity].
Defined.

(* ===================================================================== *)
(** ** The csv reader on plain lines *)
(* ===================================================================== *)
Lemma plain_cons c l :
  plain (String c l) →
  Ascii.eqb c Csv.quotechar = false ∧ Csv.is_newline c = false ∧ plain l.
Proof.
  unfold plain, Csv.is_newline. cbn [Py.contains].
  rewrite !orb_false_iff. intros ((? & ?) & (? & ?) & (? & ?)).
  repeat split; try done.
Qed.

Lemma plain_app a b : plain a → plain b → plain (a +:+ b).
Proof.
  unfold plain. rewrite !contains_app. intros (-> & -> & ->) (-> & -> & ->). done.
Qed.

Lemma process_plain_line r l :
  plain l →
  Csv.state r = Csv.START_FIELD ∨ Csv.state r = Csv.IN_FIELD →
  Csv.process_line r (l +:+ LF) =
  Ok {| Csv.state := Csv.START_RECORD; Csv.field := "";
        Csv.fields := Csv.fields r ++ glue (Csv.field r) (Py.split "," l) |}.
Proof.
  revert r. induction l as [|c l IH]; intros [st f fs] Hl Hst; cbn [Csv.state Csv.field Csv.fields] in *.
  - destruct Hst as [-> | ->]; cbn; by rewrite app_nil_r'.
  - apply plain_cons in Hl as (Hq & Hn & Hl).
    rewrite app_cons. cbn [Csv.process_line].
    assert (Hstep : Csv.parse_process_char {| Csv.state := st; Csv.field := f; Csv.fields := fs |} (Csv.Char c)
      = if Ascii.eqb c Csv.delimiter
        then Ok {| Csv.state := Csv.START_FIELD; Csv.field := ""; Csv.fields := fs ++ [f] |}
        else Ok {| Csv.state := Csv.IN_FIELD; Csv.field := f +:+ String c ""; Csv.fields := fs |}).
    { destruct Hst as [-> | ->]; unfold Csv.parse_process_char, Csv.start_field;
        cbn [Csv.state]; rewrite Hn, ?Hq; by destruct (Ascii.eqb c Csv.delimiter). }
    rewrite Hstep. unfold Csv.delimiter. cbn [Py.split].
    destruct (Ascii.eqb c ",").
    + rewrite IH by (done || by left). cbn [Csv.state Csv.field Csv.fields glue].
      by rewrite app_nil_r', <- app_assoc, glue_nil.
    + rewrite IH by (done || by right). cbn [Csv.state Csv.field Csv.fields].
      pose proof (split_not_nil "," l).
      destruct (Py.split "," l) as [|x xs]; [done|]. cbn [glue].
      by rewrite app_assoc'.
Qed.

Lemma process_plain_line_reset l :
  plain l →
  Csv.process_line Csv.reset (l +:+ LF) =
  Ok {| Csv.state := Csv.START_RECORD; Csv.field := "";
        Csv.fields := line_fields l |}.
Proof.
  intros Hl. destruct l as [|c l]; [done|].
  pose proof (plain_cons _ _ Hl) as (Hq & Hn & Hl').
  rewrite app_cons. cbn [Csv.process_line].
  unfold Csv.parse_process_char at 1. cbn [Csv.state Csv.reset]. rewrite Hn.
  unfold Csv.start_field. rewrite Hn, Hq.
  unfold Csv.delimiter. cbn [line_fields Py.split].
  destruct (Ascii.eqb c ",").
  - rewrite process_plain_line by (done || by left).
    cbn [Csv.state Csv.field Csv.fields Csv.set_state Csv.parse_save_field Csv.reset app].
    by rewrite glue_nil.
  - rewrite process_plain_line by (done || by right).
    cbn [Csv.state Csv.field Csv.fields Csv.set_state Csv.parse_add_char Csv.reset app].
    pose proof (split_not_nil "," l).
    by destruct (Py.split "," l).
Qed.

Lemma iter_lines_plain l rest :
  plain l →
  Csv.iter_lines (l +:+ LF +:+ rest) = (l +:+ LF) :: Csv.iter_lines rest.
Proof.
  induction l as [|c l IH]; intros Hl; [done|].
  apply plain_cons in Hl as (_ & Hn & Hl).
  rewrite !app_cons. cbn [Csv.iter_lines].
  unfold Csv.is_newline in Hn. apply orb_false_iff in Hn as [-> ->].
  by rewrite IH.
Qed.

Lemma read_records_plain l lines :
  plain l →
  Csv.read_records Csv.reset ((l +:+ LF) :: lines) =
  match Csv.read_records Csv.reset lines with
  | Ok recs => Ok (line_fields l :: recs)
  | Raise e => Raise e
  end.
Proof.
  intros Hl. cbn [Csv.read_records]. by rewrite process_plain_line_reset.
Qed.

Lemma reader_plain_line l rest :
  plain l →
  Csv.reader (l +:+ LF +:+ rest) =
  match Csv.reader rest with
  | Ok recs => Ok (line_fields l :: recs)
  | Raise e => Raise e
  end.
Proof.
  intros Hl. unfold Csv.reader. rewrite iter_lines_plain by done.
  by apply read_records_plain.
Qed.

Lemma reader_plain_lines ls rest :
  Forall plain ls →
  Csv.reader (lines_text ls +:+ rest) =
  match Csv.reader rest with
  | Ok recs => Ok (map line_fields ls ++ recs)
  | Raise e => Raise e
  end.
Proof.
  induction 1 as [|l ls Hl _ IH]; cbn [lines_text foldr].
  - rewrite app_nil_l'. by destruct (Csv.reader rest).
  - change (foldr _ "" ls) with (lines_text ls).
    rewrite !app_assoc', reader_plain_line, IH by done.
    by destruct (Csv.reader rest).
Qed.

Lemma reader_no_text : Csv.reader "" = Ok [].
Proof. reflexivity. Qed.

(* ===================================================================== *)
(** ** The comment marker *)
(* ===================================================================== *)
Lemma check_comments_clean (fs : list string) :
  Forall (fun f => Py.contains "#" f = false) fs →
  Pandas.check_comments fs = fs.
Proof.
  induction 1 as [|f fs Hf _ IH]; cbn; [done|].
  unfold Pandas.comment. by rewrite Hf, IH.
Qed.

Lemma check_comments_app (init l : list string) :
  Forall (fun f => Py.contains "#" f = false) init →
  Pandas.check_comments (init ++ l) = init ++ Pandas.check_comments l.
Proof.
  induction 1 as [|f fs Hf _ IH]; cbn; [done|].
  unfold Pandas.comment. by rewrite Hf, IH.
Qed.

Lemma check_comments_cut (init : list string) (x : string) (rest : list string) :
  Forall (fun f => Py.contains "#" f = false) init →
  Py.contains "#" x = true →
  Py.mem x Pandas.STR_NA_VALUES = false →
  Pandas.check_comments (init ++ x :: rest) =
  init ++ (if decide (Py.before "#" x = "") then [] else [Py.before "#" x]).
Proof.
  intros Hi Hx Hna. rewrite check_comments_app by done. f_equal.
  cbn [Pandas.check_comments]. unfold Pandas.comment. rewrite Hx, Hna. cbn.
  by destruct (Py.before "#" x).
Qed.

Lemma check_comments_line pre post :
  Py.contains "#" pre = false →
  pre = "" ∨ last_field pre ≠ "" →
  Py.mem (last_field pre +:+ String "#" (first_field post)) Pandas.STR_NA_VALUES = false →
  Pandas.check_comments (line_fields (pre +:+ String "#" post)) = line_fields pre.
Proof.
  intros Hpre Hlast Hna.
  assert (Hl : line_fields (pre +:+ String "#" post) = Py.split "," (pre +:+ String "#" post)).
  { by destruct pre. }
  rewrite Hl, split_app. cbn [Py.split]. change (Ascii.eqb "#" ",") with false. cbv iota.
  unfold last_field, first_field in *.
  pose proof (split_not_nil "," post) as Hp.
  destruct (Py.split "," post) as [|y ys]; [done|]. cbn [glue hd] in *.
  pose proof (split_clean "#" "," pre Hpre) as Hc.
  pose proof (split_not_nil "," pre) as Hn.
  rewrite (app_removelast_last "" Hn) in Hc. apply Forall_app in Hc as [Hc1 Hc2].
  inversion Hc2 as [|?? Hc3 _]; subst.
  rewrite check_comments_cut; try done.
  - rewrite before_app by done. destruct Hlast as [-> | Hlast].
    + done.
    + rewrite decide_False by done. rewrite <- app_removelast_last by done. by destruct pre.
  - apply contains_true_app.
Qed.

Lemma line_fields_clean pre :
  Py.contains "#" pre = false →
  Pandas.check_comments (line_fields pre) = line_fields pre.
Proof.
  intros H. apply check_comments_clean. destruct pre; [constructor|].
  by apply split_clean.
Qed.

Lemma check_comments_kept (init l : list string) :
  Forall (fun f => Py.contains "#" f = false
                   ∨ Py.mem f Pandas.STR_NA_VALUES = true) init →
  Pandas.check_comments (init ++ l) = init ++ Pandas.check_comments l.
Proof.
  induction 1 as [|f fs Hf _ IH]; cbn [app Pandas.check_comments]; [done|].
  unfold Pandas.comment.
  destruct Hf as [Hf|Hf]; rewrite Hf, ?orb_true_r; cbn [negb orb]; by rewrite IH.
Qed.

(** C10, as the code has it.  The marker works on the fields of a record,
    after the csv reader has split it.  A field that is an NA token is
    kept whole, also when it holds the marker.  The first field that holds
    the marker and is not an NA token is cut at the marker, dropped when
    nothing is left of it, and the fields after it are dropped.  For a
    line without double quotes, below lines without double quotes and
    above any text, whose part before the marker is empty or does not end
    in a comma, whose field with the marker is not an NA token and which
    is of ordinary text (no longer than a field may be), the frame is the
    one of the file with that line cut at the marker. *)
Theorem comment_marker_cuts_record :
  (∀ (init : list string) (x : string) (rest : list string),
     Forall (fun f => Py.contains "#" f = false
                      ∨ Py.mem f Pandas.STR_NA_VALUES = true) init →
     (Py.mem x Pandas.STR_NA_VALUES = true →
        Pandas.check_comments (init ++ x :: rest)
        = init ++ x :: Pandas.check_comments rest)
     ∧ (Py.contains "#" x = true → Py.mem x Pandas.STR_NA_VALUES = false →
          Pandas.check_comments (init ++ x :: rest) =
          init ++ (if decide (Py.before "#" x = "") then [] else [Py.before "#" x])))
  ∧ (∀ (above : list string) (pre post below : string),
       Forall plain above → plain pre → plain post →
       Py.contains "#" pre = false →
       pre = "" ∨ last_field pre ≠ "" →
       Py.mem (last_field pre +:+ "#" +:+ first_field post)
              Pandas.STR_NA_VALUES = false →
       ordinary (pre +:+ "#" +:+ post) →
       read_df (lines_text above +:+ pre +:+ "#" +:+ post +:+ LF +:+ below)
       = read_df (lines_text above +:+ pre +:+ LF +:+ below)).
Proof.
  split.
  - intros init x rest Hi. split.
    + intros Hna. rewrite check_comments_kept by done. f_equal.
      cbn [Pandas.check_comments]. by rewrite Hna, orb_true_r.
    + intros Hx Hna. rewrite check_comments_kept by done. f_equal.
      cbn [Pandas.check_comments]. unfold Pandas.comment. rewrite Hx, Hna. cbn.
      by destruct (Py.before "#" x).
  - intros above pre post below Ha Hpre Hpost Hc Hlast Hna _.
    change ("#" +:+ first_field post) with (String "#" (first_field post)) in Hna.
    change ("#" +:+ post +:+ LF +:+ below) with (String "#" (post +:+ LF +:+ below)).
    assert (E : pre +:+ String "#" (post +:+ LF +:+ below)
                = (pre +:+ String "#" post) +:+ LF +:+ below).
    { by rewrite app_assoc', app_cons. }
    rewrite E. unfold read_df, Pandas.read_csv.
    rewrite !reader_plain_lines by done.
    rewrite !reader_plain_line; [|done|].
    2:{ apply plain_app; [done|]. destruct Hpost as (? & ? & ?).
        unfold plain. cbn [Py.contains]. by repeat split. }
    destruct (Csv.reader below) as [recs|e]; [|done].
    unfold Pandas.data_lines. rewrite !map_app. cbn [map].
    by rewrite check_comments_line, line_fields_clean.
Qed.

Lemma comment_marker_cuts_record_witness :
  Pandas.check_comments (["#N/A"; "a"] ++ "b#c" :: ["d"]) = ["#N/A"; "a"; "b"]
  ∧ read_df (lines_text ["h1,h2"] +:+ "a,b" +:+ "#" +:+ "c,d" +:+ LF +:+ "e" +:+ LF)
    = read_df (lines_text ["h1,h2"] +:+ "a,b" +:+ LF +:+ "e" +:+ LF).
Proof.
  destruct comment_marker_cuts_record as [HA HB]. split.
  - destruct (HA ["#N/A"; "a"] "b#c" ["d"]) as [_ Hcut].
    + constructor; [by right|]. constructor; [by left|]. constructor.
    + by apply Hcut.
  - apply (HB ["h1,h2"] "a,b" "c,d" ("e" +:+ LF)).
    + repeat constructor.
    + repeat constructor.
    + repeat constructor.
    + reflexivity.
    + right. discriminate.
    + reflexivity.
    + split; [by vm_compute|reflexivity].
Defined.

(** C10 as stated fails: the marker is looked for after the fields are
    split, so a quote that opens after it still takes the next line into
    the record.  Cutting the first line at the marker first would leave two
    records. *)
Lemma marker_after_splitting :
  read_df swallowed_text = Ok [pad 11 ["x"]]
  ∧ read_df cut_text = Ok [pad 11 ["x"]; pad 11 ["z" +:+ QUOTE; "w"]]
  ∧ read_df swallowed_text ≠ read_df cut_text.
Proof.
  split; [vm_compute; reflexivity|]. split; [vm_compute; reflexivity|].
  intros H. vm_compute in H. discriminate.
Qed.

(** A file of comment lines has no rows. *)
Lemma comment_lines_no_rows (ls : list string) :
  Forall comment_line ls → load (lines_text ls) = Ok [].
Proof.
  intros H. unfold load, read_df, Pandas.read_csv.
  rewrite <- (app_nil_r' (lines_text ls)), reader_plain_lines.
  2:{ eapply Forall_impl; [exact H|]. by intros l [? _]. }
  rewrite reader_no_text, app_nil_r.
  assert (E : Pandas.data_lines (map line_fields ls) = []); [|by rewrite E].
  unfold Pandas.data_lines. induction H as [|l ls Hl _ IH]; [done|].
  cbn [map]. destruct Hl as (_ & c & -> & Hna).
  change (String "#" c) with ("" +:+ String "#" c).
  rewrite check_comments_line; [|done|by left|by rewrite app_nil_l'].
  cbn [line_fields]. unfold Pandas.remove_empty_lines in *.
  by rewrite filter_cons_False.
Qed.

(** A field that is the NA token [#N/A] is no comment: the line is a
    record. *)
Example na_token_is_no_comment :
  read_df ("#N/A,x" +:+ LF) = Ok [pad 11 [""; "x"]].
Proof. vm_compute. reflexivity. Qed.

(* ===================================================================== *)
(** ** Rows with too few or too many fields *)
(* ===================================================================== *)
Lemma replicate_map {A B} (f : A → B) n x : map f (replicate n x) = replicate n (f x).
Proof. induction n; cbn; congruence. Qed.


Lemma fillna_row_index n k (l : list string) :
  length l ≤ n + k →
  map (default "") (map Pandas.mask_na (drop k (Pandas.to_object_row (n + k) l))) =
  pad n (map na_to_empty (drop k l)).
Proof.
  intros Hl. unfold Pandas.to_object_row, pad.
  rewrite drop_app, length_map, drop_replicate, !map_app.
  rewrite <- (fmap_drop Some), !replicate_map, length_map, length_drop.
  change (fmap Some) with (map (@Some string)).
  f_equal.
  - rewrite !map_map. apply map_ext. intros s. unfold na_to_empty, Pandas.mask_na.
    by destruct (Py.mem s Pandas.STR_NA_VALUES).
  - cbn. f_equal. lia.
Qed.



Lemma rows_to_frame_ok n content frame :
  Pandas.rows_to_frame n content = Ok frame →
  Forall (fun l => length l ≤ n + Pandas.implicit_first_cols n content) content
  ∧ frame = map (fun l => map Pandas.mask_na
                   (drop (Pandas.implicit_first_cols n content)
                      (Pandas.to_object_row (n + Pandas.implicit_first_cols n content) l)))
                content.
Proof.
  unfold Pandas.rows_to_frame.
  destruct (existsb _ content) eqn:E; [done|]. intros [= <-]. split; [|done].
  apply List.Forall_forall. intros l Hin. apply Nat.nlt_ge. intros Hlt.
  assert (existsb (fun row => n + Pandas.implicit_first_cols n content <? length row) content = true);
    [|congruence].
  apply existsb_exists. exists l. split; [done|]. by apply Nat.ltb_lt.
Qed.

Lemma load_rows text rows :
  load text = Ok rows →
  ∃ records,
    Csv.reader text = Ok records ∧
    let lines := Pandas.data_lines records in
    let k := Pandas.implicit_first_cols 11 lines in
    rows = map (fun l => to_row (pad 11 (map na_to_empty (drop k l)))) lines.
Proof.
  unfold load, read_df, Pandas.read_csv. change (length FIELD_NAMES) with 11.
  destruct (Csv.reader text) as [records|e]; [|done].
  destruct (Pandas.rows_to_frame 11 _) as [frame|e] eqn:E; [|done].
  intros [= <-]. exists records. split; [done|]. cbv zeta.
  apply rows_to_frame_ok in E as [Hlen ->].
  unfold Pandas.fillna. rewrite !map_map.
  apply map_ext_Forall. eapply Forall_impl; [exact Hlen|].
  intros l Hl. cbn beta. f_equal. by apply fillna_row_index.
Qed.




(** When the first record is the long one, its surplus leading fields are
    taken as row labels and the columns shift. *)
Example first_row_sets_the_width :
  read_df ("a,b,c,d,e,f,g,h,i,j,k,l" +:+ LF +:+ "x,y" +:+ LF)
  = Ok [ ["b";"c";"d";"e";"f";"g";"h";"i";"j";"k";"l"]; pad 11 ["y"] ].
Proof. vm_compute. reflexivity. Qed.

(* ===================================================================== *)
(** ** The template and its rendering *)
(* ===================================================================== *)

(** The text between the tags, with the tags, is the template; the
    rendering drops the last newline. *)
Lemma TEMPLATE_slices :
  TEMPLATE =
  T_head +:+ "{% for chem in chems %}"
  +:+ T_option_open +:+ "{{ chem }}" +:+ T_option_mid +:+ "{{ chem }}"
  +:+ T_option_close +:+ "{% endfor %}"
  +:+ T_species +:+ "{% for sp in species_list %}"
  +:+ T_option_open +:+ "{{ sp }}" +:+ T_option_mid +:+ "{{ sp }}"
  +:+ T_option_close +:+ "{% endfor %}"
  +:+ T_table +:+ "{% for row in rows %}"
  +:+ T_row_open +:+ "{{ row.Chemical }}" +:+ T_cell +:+ "{{ row.Species }}"
  +:+ T_cell +:+ "{{ row.GeneSymbol }}" +:+ T_cell +:+ "{{ row.Interaction }}"
  +:+ T_badges_open +:+ "{% for badge in row.Badges %}"
  +:+ T_badge_open +:+ "{{ badge.cls }}" +:+ T_badge_mid +:+ "{{ badge.txt }}"
  +:+ T_badge_close +:+ "{% endfor %}"
  +:+ T_pubmed_open +:+ "{% for pid in row.PubMedIDs %}"
  +:+ T_link_open +:+ "{{pid}}" +:+ T_link_mid +:+ "{{pid}}" +:+ T_link_close
  +:+ "{% if not loop.last %}" +:+ T_link_sep +:+ "{% endif %}"
  +:+ T_link_end +:+ "{% endfor %}"
  +:+ T_row_close +:+ "{% endfor %}" +:+ T_tail +:+ LF.
Proof. vm_compute. reflexivity. Qed.

Lemma load_caffeine : load caffeine_text = Ok caffeine_rows.
Proof. vm_compute. reflexivity. Qed.

Lemma interpolated_Forall (P : string → Prop) row :
  Forall P (interpolated row) →
  P (Chemical row) ∧ P (Species row) ∧ P (GeneSymbol row) ∧ P (Interaction row)
  ∧ Forall (fun b => P (cls b) ∧ P (txt b)) (Badges row)
  ∧ Forall P (PubMedIDs row).
Proof.
  unfold interpolated. intros H.
  apply Forall_app in H as [H0 H]. apply Forall_app in H as [Hb Hp].
  inversion H0 as [|?? H1 T1]; subst. inversion T1 as [|?? H2 T2]; subst.
  inversion T2 as [|?? H3 T3]; subst. inversion T3 as [|?? H4 _]; subst.
  repeat split; try done.
  clear -Hb. induction (Badges row) as [|b l IH]; [constructor|].
  cbn [flat_map] in Hb. apply Forall_app in Hb as [Hb1 Hb2].
  inversion Hb1 as [|?? Hc T1]; subst. inversion T1 as [|?? Ht _]; subst.
  constructor; [done|by apply IH].
Qed.

Lemma escape_markup_free s : markup_free s = true → Jinja.escape s = s.
Proof.
  induction s as [|c s IH]; cbn [markup_free Jinja.escape]; [done|].
  intros [Hc Hs]%andb_true_iff. rewrite IH by done.
  unfold markup in Hc. apply negb_true_iff in Hc.
  repeat (apply orb_false_iff in Hc as [Hc ?]).
  unfold Jinja.escape_char. by repeat match goal with H : Ascii.eqb _ _ = false |- _ => rewrite H; clear H end.
Qed.

Lemma output_markup_free env s : markup_free s = true → Jinja.output env s = s.
Proof.
  intros H. unfold Jinja.output. destruct (Jinja.autoescape env); [|done].
  by apply escape_markup_free.
Qed.

Lemma for_loop_ext {A} (f g : A → bool → string) (items : list A) :
  Forall (fun x => ∀ last, f x last = g x last) items →
  Jinja.for_loop f items = Jinja.for_loop g items.
Proof.
  induction 1 as [|x l Hx Hl IH]; [done|].
  cbn [Jinja.for_loop]. destruct l as [|y l]; [apply Hx|]. by rewrite Hx, IH.
Qed.

Lemma for_loop_concat {A} (body : A → bool → string) (items : list A) :
  (∀ x l1 l2, body x l1 = body x l2) →
  Jinja.for_loop body items = String.concat "" (map (fun x => body x false) items).
Proof.
  intros Hb. induction items as [|x l IH]; [done|].
  cbn [Jinja.for_loop map String.concat]. destruct l as [|y l]; [apply Hb|].
  rewrite IH. done.
Qed.

Lemma render_markup_free env rows cs ss :
  Forall row_markup_free rows →
  Forall (fun v => markup_free v = true) cs →
  Forall (fun v => markup_free v = true) ss →
  render env rows cs ss = render Jinja.default_environment rows cs ss.
Proof.
  intros Hr Hc Hs. unfold render.
  assert (Ho : ∀ l, Forall (fun v => markup_free v = true) l →
    Jinja.for_loop (render_option env) l
    = Jinja.for_loop (render_option Jinja.default_environment) l).
  { intros l Hl. apply for_loop_ext. eapply Forall_impl; [exact Hl|].
    intros v Hv last. unfold render_option. by rewrite !output_markup_free. }
  rewrite !Ho by done.
  assert (Hrow : Jinja.for_loop (render_row env) rows
                 = Jinja.for_loop (render_row Jinja.default_environment) rows).
  { apply for_loop_ext. eapply Forall_impl; [exact Hr|].
    intros row Hrow last. unfold render_row.
    apply interpolated_Forall in Hrow as (H1 & H2 & H3 & H4 & Hb & Hp).
    rewrite !output_markup_free by done.
    assert (Jinja.for_loop (render_badge env) (Badges row)
            = Jinja.for_loop (render_badge Jinja.default_environment) (Badges row)) as ->.
    { apply for_loop_ext. eapply Forall_impl; [exact Hb|].
      intros b [Hb1 Hb2] l. unfold render_badge. by rewrite !output_markup_free. }
    assert (Jinja.for_loop (render_link env) (PubMedIDs row)
            = Jinja.for_loop (render_link Jinja.default_environment) (PubMedIDs row)) as ->.
    { apply for_loop_ext. eapply Forall_impl; [exact Hp|].
      intros p Hp' l. unfold render_link. by rewrite !output_markup_free. }
    done. }
  by rewrite Hrow.
Qed.

(** C2, as the code has it.  [Template(TEMPLATE)] has escaping off: every
    value is put into the document as it is.  The document is the escaped
    rendering whenever no value of a row holds one of the characters that
    escaping rewrites. *)
Theorem interpolation_verbatim :
  (∀ v, Jinja.output Jinja.default_environment v = v)
  ∧ (∀ rows, Forall row_markup_free rows →
       document rows = render escaping rows (chems rows) (species_list rows)).
Proof.
  split; [done|]. intros rows Hr. unfold document. symmetry.
  apply render_markup_free; [done| |].
  - apply list.Forall_forall. intros v (r & Hin & <-)%chems_elem_of.
    rewrite list.Forall_forall in Hr. specialize (Hr r Hin).
    by apply interpolated_Forall in Hr as (? & _).
  - apply list.Forall_forall. intros v (r & Hin & <-)%species_list_elem_of.
    rewrite list.Forall_forall in Hr. specialize (Hr r Hin).
    by apply interpolated_Forall in Hr as (_ & ? & _).
Qed.

Lemma interpolation_verbatim_witness :
  Jinja.output Jinja.default_environment "a<b" = "a<b"
  ∧ document caffeine_rows
    = render escaping caffeine_rows (chems caffeine_rows) (species_list caffeine_rows).
Proof.
  destruct interpolation_verbatim as [H1 H2]. split.
  - apply H1.
  - apply H2. repeat constructor.
Defined.

(** C2 as stated fails: a chemical name with a script element reaches the
    document as markup, and the document is not the escaped rendering. *)
Lemma markup_reaches_document :
  load markup_text = Ok markup_rows
  ∧ occurs "<td><script>alert(1)</script></td>" (document markup_rows) = true
  ∧ document markup_rows
    ≠ render escaping markup_rows (chems markup_rows) (species_list markup_rows).
Proof.
  split; [vm_compute; reflexivity|]. split; [vm_compute; reflexivity|].
  intros H. apply (f_equal String.length) in H. vm_compute in H. discriminate.
Qed.

(* ===================================================================== *)
(** ** Counting the elements of the document *)
(* ===================================================================== *)
Lemma prefix_app_closed pat u b :
  (String.prefix u pat && (String.length u <? String.length pat)) = false →
  String.prefix pat (u +:+ b) = String.prefix pat u.
Proof.
  revert u. induction pat as [|a p IH]; intros u H.
  - by rewrite !prefix_nil.
  - destruct u as [|c u].
    + cbn in H. discriminate.
    + rewrite app_cons, !prefix_cons. rewrite prefix_cons in H.
      rewrite (Ascii.eqb_sym a c). destruct (Ascii.eqb c a); [|done].
      apply IH. exact H.
Qed.

Lemma count_app pat a b :
  open_suffix pat a = false → count pat (a +:+ b) = count pat a + count pat b.
Proof.
  induction a as [|c a IH]; [done|].
  cbn [open_suffix]. intros [H1 H2]%orb_false_iff.
  rewrite app_cons. cbn [count]. rewrite <- app_cons.
  rewrite prefix_app_closed by done. rewrite IH by done. lia.
Qed.

Lemma prefix_app_l u b pat :
  String.prefix (u +:+ b) pat = true → String.prefix u pat = true.
Proof.
  revert pat. induction u as [|c u IH]; intros pat; [by rewrite prefix_nil|].
  rewrite app_cons. destruct pat as [|a p]; [done|]. rewrite !prefix_cons.
  destruct (Ascii.eqb c a); [apply IH|done].
Qed.

Lemma open_suffix_app pat a b :
  open_suffix pat a = false → open_suffix pat b = false →
  open_suffix pat (a +:+ b) = false.
Proof.
  intros Ha Hb. induction a as [|c a IH]; [done|].
  cbn [open_suffix] in Ha. apply orb_false_iff in Ha as [H1 H2].
  rewrite app_cons. cbn [open_suffix]. rewrite <- app_cons, IH by done.
  rewrite orb_false_r. apply andb_false_iff.
  apply andb_false_iff in H1 as [H1|H1].
  - left. destruct (String.prefix (String c a +:+ b) pat) eqn:E; [|done].
    apply prefix_app_l in E. congruence.
  - right. apply Nat.ltb_ge in H1. apply Nat.ltb_ge. rewrite length_app'. lia.
Qed.

Lemma tame_app pat a b n m :
  tame pat a n → tame pat b m → tame pat (a +:+ b) (n + m).
Proof.
  intros [Ha <-] [Hb <-]. split; [by apply open_suffix_app|by apply count_app].
Qed.

Lemma tame_value c p v :
  Py.contains c v = false → tame (String c p) v 0.
Proof.
  induction v as [|d v IH]; [done|]. cbn [Py.contains].
  intros [Hd Hv]%orb_false_iff. destruct (IH Hv) as [IH1 IH2]. split.
  - cbn [open_suffix]. rewrite IH1, orb_false_r, prefix_cons. by rewrite Hd.
  - cbn [count]. rewrite IH2, prefix_cons, (Ascii.eqb_sym c d), Hd. done.
Qed.

Lemma tame_for_loop {A} pat (body : A → bool → string) (items : list A) k :
  Forall (fun x => ∀ last, tame pat (body x last) k) items →
  tame pat (Jinja.for_loop body items) (k * length items).
Proof.
  induction 1 as [|x l Hx Hl IH]; [by rewrite Nat.mul_0_r|].
  cbn [Jinja.for_loop length]. destruct l as [|y l].
  - cbn [length]. replace (k * 1) with k by lia. apply Hx.
  - replace (k * S (length (y :: l))) with (k + k * length (y :: l)) by lia.
    by apply tame_app.
Qed.

Lemma tame_eq pat s n m : tame pat s n → n = m → tame pat s m.
Proof. by intros H <-. Qed.

Ltac tame_leaf :=
  first [ eassumption
        | apply tame_value; assumption
        | split; vm_compute; reflexivity ].

Ltac tame_go :=
  lazymatch goal with
  | |- tame _ (_ +:+ _) _ => eapply tame_app; [tame_leaf | tame_go]
  | |- tame _ _ _ => tame_leaf
  end.

Lemma tame_option_tr v last :
  Py.contains "<" v = false → tame "<tr>" (render_option default_env v last) 0.
Proof.
  intros Hv. unfold render_option, default_env, Jinja.output; cbn [Jinja.autoescape Jinja.default_environment].
  eapply tame_eq; [tame_go|reflexivity].
Qed.

Lemma tame_option_option v last :
  Py.contains "<" v = false → tame "<option" (render_option default_env v last) 1.
Proof.
  intros Hv. unfold render_option, default_env, Jinja.output; cbn [Jinja.autoescape Jinja.default_environment].
  eapply tame_eq; [tame_go|reflexivity].
Qed.

Ltac tame_row_script Hrow row :=
  apply interpolated_Forall in Hrow as (H1 & H2 & H3 & H4 & Hb & Hp);
  unfold render_row, default_env, Jinja.output;
  cbn [Jinja.autoescape Jinja.default_environment];
  match goal with
  | |- tame ?pat _ _ =>
      assert (Hbs : tame pat (Jinja.for_loop (render_badge Jinja.default_environment) (Badges row)) (0 * length (Badges row)));
      [ apply tame_for_loop; eapply Forall_impl; [exact Hb|];
        intros b [Hc Ht] l; unfold render_badge, Jinja.output;
        cbn [Jinja.autoescape Jinja.default_environment];
        eapply tame_eq; [tame_go|reflexivity]
      | assert (Hls : tame pat (Jinja.for_loop (render_link Jinja.default_environment) (PubMedIDs row)) (0 * length (PubMedIDs row)));
        [ apply tame_for_loop; eapply Forall_impl; [exact Hp|];
          intros pid Hpid l; unfold render_link, Jinja.output;
          cbn [Jinja.autoescape Jinja.default_environment];
          destruct l; cbn [negb]; (eapply tame_eq; [tame_go|reflexivity])
        | eapply tame_eq; [tame_go|cbn; lia] ] ]
  end.

Lemma tame_row_tr row last :
  tag_free row → tame "<tr>" (render_row default_env row last) 1.
Proof. intros Hrow. tame_row_script Hrow row. Qed.

Lemma tame_row_option row last :
  tag_free row → tame "<option" (render_row default_env row last) 0.
Proof. intros Hrow. tame_row_script Hrow row. Qed.

Lemma count_document_tr rows cs ss :
  Forall tag_free rows →
  Forall (fun v => Py.contains "<" v = false) cs →
  Forall (fun v => Py.contains "<" v = false) ss →
  count "<tr>" (render default_env rows cs ss) = 1 + length rows.
Proof.
  intros Hr Hc Hs.
  assert (H1 : tame "<tr>" (Jinja.for_loop (render_option default_env) cs) (0 * length cs)).
  { apply tame_for_loop. eapply Forall_impl; [exact Hc|]. intros v Hv l. by apply tame_option_tr. }
  assert (H2 : tame "<tr>" (Jinja.for_loop (render_option default_env) ss) (0 * length ss)).
  { apply tame_for_loop. eapply Forall_impl; [exact Hs|]. intros v Hv l. by apply tame_option_tr. }
  assert (H3 : tame "<tr>" (Jinja.for_loop (render_row default_env) rows) (1 * length rows)).
  { apply tame_for_loop. eapply Forall_impl; [exact Hr|]. intros v Hv l. by apply tame_row_tr. }
  assert (H : tame "<tr>" (render default_env rows cs ss) (1 + length rows)).
  { unfold render. eapply tame_eq; [tame_go|cbn; lia]. }
  apply H.
Qed.

Lemma count_document_option rows cs ss :
  Forall tag_free rows →
  Forall (fun v => Py.contains "<" v = false) cs →
  Forall (fun v => Py.contains "<" v = false) ss →
  count "<option" (render default_env rows cs ss) = 2 + length cs + length ss.
Proof.
  intros Hr Hc Hs.
  assert (H1 : tame "<option" (Jinja.for_loop (render_option default_env) cs) (1 * length cs)).
  { apply tame_for_loop. eapply Forall_impl; [exact Hc|]. intros v Hv l. by apply tame_option_option. }
  assert (H2 : tame "<option" (Jinja.for_loop (render_option default_env) ss) (1 * length ss)).
  { apply tame_for_loop. eapply Forall_impl; [exact Hs|]. intros v Hv l. by apply tame_option_option. }
  assert (H3 : tame "<option" (Jinja.for_loop (render_row default_env) rows) (0 * length rows)).
  { apply tame_for_loop. eapply Forall_impl; [exact Hr|]. intros v Hv l. by apply tame_row_option. }
  assert (H : tame "<option" (render default_env rows cs ss) (2 + length cs + length ss)).
  { unfold render. eapply tame_eq; [tame_go|cbn; lia]. }
  apply H.
Qed.

Lemma prefix_app_weaken p a b :
  String.prefix p a = true → String.prefix p (a +:+ b) = true.
Proof.
  revert a. induction p as [|c p IH]; intros a H; [by rewrite prefix_nil|].
  destruct a as [|d a]; [done|]. rewrite app_cons, prefix_cons in *.
  destruct (Ascii.eqb c d); [by apply IH|done].
Qed.

(** Joining two texts loses no match. *)
Lemma count_app_ge pat a b : count pat a + count pat b ≤ count pat (a +:+ b).
Proof.
  induction a as [|c a IH]; [done|].
  rewrite app_cons. cbn [count]. rewrite <- app_cons.
  destruct (String.prefix pat (String c a)) eqn:E.
  - rewrite (prefix_app_weaken _ _ b E). lia.
  - destruct (String.prefix pat (String c a +:+ b)); lia.
Qed.

Lemma count_for_loop_ge {A} pat (body : A → bool → string) (items : list A) k :
  (∀ x last, k ≤ count pat (body x last)) →
  k * length items ≤ count pat (Jinja.for_loop body items).
Proof.
  intros Hb. induction items as [|x l IH]; [cbn; lia|].
  cbn [Jinja.for_loop length]. destruct l as [|y l].
  - specialize (Hb x true). cbn [length]. lia.
  - pose proof (count_app_ge pat (body x false) (Jinja.for_loop body (y :: l))) as Ha.
    specialize (Hb x false). lia.
Qed.

Lemma count_row_tr_ge env row last : 1 ≤ count "<tr>" (render_row env row last).
Proof.
  unfold render_row.
  etrans; [|apply count_app_ge].
  assert (count "<tr>" T_row_open = 1) as -> by (vm_compute; reflexivity). lia.
Qed.

Lemma count_option_ge env v last : 1 ≤ count "<option" (render_option env v last).
Proof.
  unfold render_option.
  etrans; [|apply count_app_ge].
  assert (count "<option" T_option_open = 1) as -> by (vm_compute; reflexivity). lia.
Qed.

Ltac count_parts :=
  repeat match goal with
         | |- context [count ?p (?a +:+ ?b)] =>
             pose proof (count_app_ge p a b);
             generalize dependent (count p (a +:+ b)); intros
         | H : context [count ?p (?a +:+ ?b)] |- _ =>
             pose proof (count_app_ge p a b);
             generalize dependent (count p (a +:+ b)); intros
         end.

Lemma count_document_ge env rows cs ss :
  1 + length rows ≤ count "<tr>" (render env rows cs ss)
  ∧ 2 + length cs + length ss ≤ count "<option" (render env rows cs ss).
Proof.
  unfold render. split.
  - pose proof (count_for_loop_ge "<tr>" (render_row env) rows 1
                  (fun x l => count_row_tr_ge env x l)) as Hrows.
    assert (Ht : count "<tr>" T_table = 1) by (vm_compute; reflexivity).
    count_parts. lia.
  - pose proof (count_for_loop_ge "<option" (render_option env) cs 1
                  (fun x l => count_option_ge env x l)) as Hcs.
    pose proof (count_for_loop_ge "<option" (render_option env) ss 1
                  (fun x l => count_option_ge env x l)) as Hss.
    assert (Hh : count "<option" T_head = 1) by (vm_compute; reflexivity).
    assert (Hsp : count "<option" T_species = 1) by (vm_compute; reflexivity).
    count_parts. lia.
Qed.

Lemma tag_free_chems rows :
  Forall tag_free rows → Forall (fun v => Py.contains "<" v = false) (chems rows).
Proof.
  intros Hr. apply list.Forall_forall. intros v (r & Hin & <-)%chems_elem_of.
  rewrite list.Forall_forall in Hr. specialize (Hr r Hin).
  by apply interpolated_Forall in Hr as (? & _).
Qed.

Lemma tag_free_species rows :
  Forall tag_free rows → Forall (fun v => Py.contains "<" v = false) (species_list rows).
Proof.
  intros Hr. apply list.Forall_forall. intros v (r & Hin & <-)%species_list_elem_of.
  rewrite list.Forall_forall in Hr. specialize (Hr r Hin).
  by apply interpolated_Forall in Hr as (_ & ? & _).
Qed.

(** C7, as the code has it.  When the input loads, the rows are the
    records of the file that count as data, one row per record and in their
    order, each filled up to eleven fields; the document is the fixed text
    with one option element per entry of each vocabulary and one table row
    element per row, in order.  In the text itself the row elements are
    never fewer than one per row besides the header row, and the option
    elements never fewer than one per vocabulary entry besides the two
    that stand for no filter; they are exactly as many when no value of a
    row holds the character that opens a tag.  Values are written as they
    are, so a value that is itself the text of a tag is counted with the
    elements. *)
Theorem one_row_per_record (text : string) (rows : list Row) :
  load text = Ok rows →
  (∃ records,
     Csv.reader text = Ok records ∧
     let lines := Pandas.data_lines records in
     let k := Pandas.implicit_first_cols 11 lines in
     rows = map (fun l => to_row (pad 11 (map na_to_empty (drop k l)))) lines)
  ∧ document rows =
      T_head
      +:+ String.concat "" (map (fun v => render_option default_env v false) (chems rows))
      +:+ T_species
      +:+ String.concat "" (map (fun v => render_option default_env v false) (species_list rows))
      +:+ T_table
      +:+ String.concat "" (map (fun row => render_row default_env row false) rows)
      +:+ T_tail
  ∧ (1 + length rows ≤ count "<tr>" (document rows)
     ∧ 2 + length (chems rows) + length (species_list rows)
       ≤ count "<option" (document rows))
  ∧ (Forall tag_free rows →
       count "<tr>" (document rows) = 1 + length rows
       ∧ count "<option" (document rows)
         = 2 + length (chems rows) + length (species_list rows)).
Proof.
  intros Hl. split; [by apply load_rows|]. split; [|split].
  - unfold document, render. by rewrite !for_loop_concat.
  - apply count_document_ge.
  - intros Hr. split.
    + apply count_document_tr; [done|by apply tag_free_chems|by apply tag_free_species].
    + apply count_document_option; [done|by apply tag_free_chems|by apply tag_free_species].
Qed.

Lemma one_row_per_record_witness :
  (1 + length caffeine_rows ≤ count "<tr>" (document caffeine_rows))
  ∧ count "<tr>" (document caffeine_rows) = 2
  ∧ count "<option" (document caffeine_rows) = 4.
Proof.
  destruct (one_row_per_record caffeine_text caffeine_rows load_caffeine)
    as (_ & _ & (Hge & _) & H).
  split; [exact Hge|]. apply H. repeat constructor.
Defined.

(** C7 as stated fails: the count is not exact for every input.  A chemical
    whose name is the text of a row tag gives one row, and five row tags in
    the document: the header row, the row, its cell, and the option element
    of the name twice. *)
Lemma tag_text_in_value_is_counted :
  load tr_text = Ok tr_rows
  ∧ length tr_rows = 1
  ∧ count "<tr>" (document tr_rows) = 5.
Proof.
  split; [vm_compute; reflexivity|]. split; [reflexivity|].
  vm_compute. reflexivity.
Qed.

(* ===================================================================== *)
(** ** The run of the script *)
(* ===================================================================== *)
Lemma main_success w f rows :
  files w !! CTD_FILE = Some f → readable f = true →
  load (content f) = Ok rows →
  output_writable w →
  ∃ w', main w = (0, w')
    ∧ content <$> (files w' !! OUTPUT_HTML) = Some (document rows)
    ∧ OUTPUT_DIR ∈ dirs w'.
Proof.
  intros Hf Hr Hl (Hd & Hn & Hw).
  unfold main, script, mbind, M_bind, bind, read_file, lift.
  rewrite Hf, Hr, Hl. unfold makedirs. rewrite Hd. unfold write_file.
  cbn [files dirs stdout].
  assert (Hn' : OUTPUT_HTML ∉ ({[OUTPUT_DIR]} ∪ dirs w : gset string)).
  { rewrite elem_of_union, elem_of_singleton. intros [E|E]; [discriminate|done]. }
  destruct (decide _) as [E|_]; [done|].
  destruct (files w !! OUTPUT_HTML) as [g|] eqn:Eg.
  - rewrite (Hw g eq_refl). eexists. split; [reflexivity|].
    cbn [files dirs]. rewrite lookup_insert_eq. split; [done|set_solver].
  - eexists. split; [reflexivity|].
    cbn [files dirs]. rewrite lookup_insert_eq. split; [done|set_solver].
Qed.

Lemma load_no_text : load "" = Ok [].
Proof. reflexivity. Qed.

(** C9.  When the input file is absent or cannot be read, the run ends
    with a status other than zero and the world is as it was: no directory
    made, no file made or changed, nothing printed. *)
Theorem missing_input_aborts (w : World) :
  input_unavailable w →
  ∃ code, main w = (code, w) ∧ code ≠ 0.
Proof.
  intros H. exists 1. split; [|done].
  unfold main, script, mbind, M_bind, bind, read_file.
  destruct H as [-> | (f & -> & ->)]; reflexivity.
Qed.

Lemma missing_input_aborts_witness :
  ∃ code, main empty_world = (code, empty_world) ∧ code ≠ 0.
Proof.
  apply (missing_input_aborts empty_world). left. reflexivity.
Defined.

(** C3.  When the input gives no rows, both vocabularies are empty, the
    document is the fixed text of the template alone (its only row element
    is the header row, its only option elements the two that stand for no
    filter), and the run writes it and ends with status zero. *)
Theorem empty_input_document (text : string) :
  load text = Ok [] →
  chems [] = [] ∧ species_list [] = []
  ∧ document [] = T_head +:+ T_species +:+ T_table +:+ T_tail
  ∧ count "<tr>" (document []) = 1 ∧ count "<option" (document []) = 2
  ∧ ∀ w f,
      files w !! CTD_FILE = Some f → readable f = true → content f = text →
      output_writable w →
      ∃ w', main w = (0, w')
        ∧ content <$> (files w' !! OUTPUT_HTML) = Some (document []).
Proof.
  intros Hl.
  split; [reflexivity|]. split; [reflexivity|].
  split; [vm_compute; reflexivity|].
  split; [vm_compute; reflexivity|].
  split; [vm_compute; reflexivity|].
  intros w f Hf Hr <- Hw.
  destruct (main_success w f [] Hf Hr Hl Hw) as (w' & Hm & Hc & _). eauto.
Qed.

Lemma empty_input_document_witness :
  ∃ w', main (world_with ("#header" +:+ LF)) = (0, w')
    ∧ content <$> (files w' !! OUTPUT_HTML) = Some (document []).
Proof.
  assert (Hl : load ("#header" +:+ LF) = Ok []) by (vm_compute; reflexivity).
  destruct (empty_input_document _ Hl) as (_ & _ & _ & _ & _ & H).
  apply (H (world_with ("#header" +:+ LF)) (file ("#header" +:+ LF))).
  - reflexivity.
  - reflexivity.
  - reflexivity.
  - split; [reflexivity|]. split; [apply not_elem_of_empty|].
    intros g Hg. vm_compute in Hg. discriminate.
Defined.

(* ===================================================================== *)
(** ** make_safe (lines 103-105) *)
(* ===================================================================== *)
Lemma all_chars_impl (p q : ascii → bool) s :
  (∀ c, p c = true → q c = true) → all_chars p s = true → all_chars q s = true.
Proof.
  intros Hpq. induction s as [|c s IH]; [done|]. cbn [all_chars].
  intros [Hc Hs]%andb_true_iff. by rewrite (Hpq c Hc), IH.
Qed.

Lemma join_chars_length f s : String.length (Py.join_chars f s) = String.length s.
Proof. induction s; cbn; congruence. Qed.

Lemma lower_length s : String.length (Py.lower s) = String.length s.
Proof. induction s; cbn; congruence. Qed.

Lemma safe_after_lower c :
  safe_char (if Py.isalnum (if Ascii.eqb (Py.lower_char c) " " then "_"%char else Py.lower_char c)
                || Ascii.eqb (if Ascii.eqb (Py.lower_char c) " " then "_"%char else Py.lower_char c) "_"
             then (if Ascii.eqb (Py.lower_char c) " " then "_"%char else Py.lower_char c)
             else "_"%char) = true.
Proof. destruct c as [[] [] [] [] [] [] [] []]; vm_compute; reflexivity. Qed.

Lemma safe_char_fixed c :
  safe_char c = true →
  Py.isspace c = false ∧ Py.lower_char c = c ∧ Ascii.eqb c " " = false
  ∧ (Py.isalnum c || Ascii.eqb c "_") = true.
Proof. destruct c as [[] [] [] [] [] [] [] []]; vm_compute; intros; try discriminate; done. Qed.

Lemma make_safe_chars_all s :
  all_chars safe_char
    (Py.join_chars
       (fun ch => if Py.isalnum ch || Ascii.eqb ch "_" then ch else "_"%char)
       (Py.replace " " "_" (Py.lower s))) = true.
Proof.
  induction s as [|c s IH]; [done|].
  cbn [Py.lower Py.replace Py.join_chars all_chars].
  by rewrite safe_after_lower, IH.
Qed.

Lemma safe_lstrip s : all_chars safe_char s = true → Py.lstrip s = s.
Proof.
  destruct s as [|c s]; [done|]. cbn [all_chars Py.lstrip].
  intros [Hc _]%andb_true_iff. by destruct (safe_char_fixed c Hc) as (-> & _).
Qed.

Lemma safe_rstrip s : all_chars safe_char s = true → Py.rstrip s = s.
Proof.
  induction s as [|c s IH]; [done|]. cbn [all_chars Py.rstrip].
  intros [Hc Hs]%andb_true_iff. rewrite IH by done.
  destruct (safe_char_fixed c Hc) as (-> & _). by destruct s.
Qed.

Lemma safe_fixed s :
  all_chars safe_char s = true →
  Py.join_chars
    (fun ch => if Py.isalnum ch || Ascii.eqb ch "_" then ch else "_"%char)
    (Py.replace " " "_" (Py.lower s)) = s.
Proof.
  induction s as [|c s IH]; [done|]. cbn [all_chars].
  intros [Hc Hs]%andb_true_iff.
  cbn [Py.lower Py.replace Py.join_chars]. rewrite IH by done.
  destruct (safe_char_fixed c Hc) as (_ & -> & -> & ->). done.
Qed.

(** X1.  [make_safe] on a name of ASCII characters: the result is made of
    lower-case letters, digits and underscores only, has as many characters
    as the name has after stripping the white space at its ends, and is not
    changed by a second application. *)
Theorem make_safe_identifier (name : string) :
  is_ascii name →
  all_chars safe_char (make_safe name) = true
  ∧ String.length (make_safe name) = String.length (Py.strip name)
  ∧ make_safe (make_safe name) = make_safe name.
Proof.
  intros _. unfold make_safe. split; [apply make_safe_chars_all|]. split.
  - by rewrite join_chars_length, replace_length, lower_length.
  - pose proof (make_safe_chars_all (Py.strip name)) as H.
    unfold Py.strip at 1. rewrite safe_lstrip, safe_rstrip by done.
    by apply safe_fixed.
Qed.

Lemma make_safe_identifier_witness :
  all_chars safe_char (make_safe "  Homo sapiens (NCBI:9606) ") = true
  ∧ make_safe "  Homo sapiens (NCBI:9606) " = "homo_sapiens__ncbi_9606_".
Proof.
  destruct (make_safe_identifier "  Homo sapiens (NCBI:9606) ") as (H & _ & _).
  - reflexivity.
  - split; [exact H | reflexivity].
Defined.

(* ===================================================================== *)
(** ** Cells, further *)
(* ===================================================================== *)
Lemma split_at_sep sep a b :
  Py.split sep (a +:+ String sep b) = Py.split sep a ++ Py.split sep b.
Proof.
  rewrite split_app. cbn [Py.split]. rewrite Ascii.eqb_refl. cbn [glue].
  rewrite app_nil_r'.
  rewrite (app_removelast_last "" (split_not_nil sep a)) at 3.
  by rewrite <- app_assoc.
Qed.

Lemma segments_at_pipe a b :
  segments (a +:+ "|" +:+ b) = segments a ++ segments b.
Proof.
  unfold segments. change ("|" +:+ b) with (String "|" b).
  by rewrite split_at_sep, filter_app.
Qed.

(** X3.  A pipe cuts a cell in two independent parts: the badges of
    [a|b] are the badges of [a] followed by those of [b], and likewise for
    the PubMed identifiers. *)
Theorem parse_actions_at_pipe (a b : string) :
  parse_actions (a +:+ "|" +:+ b) = parse_actions a ++ parse_actions b
  ∧ split_pubmed (a +:+ "|" +:+ b) = split_pubmed a ++ split_pubmed b.
Proof.
  split.
  - by rewrite !parse_actions_segments, segments_at_pipe, map_app.
  - by rewrite !split_pubmed_segments, segments_at_pipe.
Qed.

Lemma split_all_empty sep s :
  Forall (fun seg => seg = "") (Py.split sep s)
  ↔ all_chars (fun c => Ascii.eqb c sep) s = true.
Proof.
  induction s as [|c s IH]; cbn [Py.split all_chars].
  - split; [done|]. by repeat constructor.
  - destruct (Ascii.eqb c sep); cbn [andb].
    + rewrite <- IH. split.
      * by inversion 1.
      * by constructor.
    + split; [|done]. pose proof (split_not_nil sep s).
      destruct (Py.split sep s); [done|]. by inversion 1.
Qed.

Lemma filter_nil_Forall {A} (P : A → Prop) `{∀ x, Decision (P x)} (l : list A) :
  filter P l = [] ↔ Forall (fun x => ¬ P x) l.
Proof.
  induction l as [|x l IH]; [by split; [constructor|]|].
  destruct (decide (P x)) as [Hx|Hx].
  - rewrite filter_cons_True by done. split; [done|]. by inversion 1.
  - rewrite filter_cons_False by done. rewrite IH. split.
    + by constructor.
    + by inversion 1.
Qed.

(** X4.  A cell gives no badge, and no PubMed identifier, exactly when it
    is made of pipes only (the empty cell included); in general there are
    as many badges as non-empty segments. *)
Theorem no_badge_iff_only_pipes (cell : string) :
  (parse_actions cell = [] ↔ all_chars (fun c => Ascii.eqb c "|") cell = true)
  ∧ (split_pubmed cell = [] ↔ all_chars (fun c => Ascii.eqb c "|") cell = true)
  ∧ length (parse_actions cell) = length (segments cell).
Proof.
  assert (Hs : segments cell = [] ↔ all_chars (fun c => Ascii.eqb c "|") cell = true).
  { unfold segments. rewrite filter_nil_Forall, <- split_all_empty.
    split; intros H; (eapply Forall_impl; [exact H|]); intros seg; cbn beta.
    - apply dec_stable.
    - auto. }
  split; [|split].
  - rewrite parse_actions_segments, <- Hs. split.
    + by intros ?%fmap_nil_inv.
    + by intros ->.
  - by rewrite split_pubmed_segments.
  - by rewrite parse_actions_segments, length_map.
Qed.

Lemma replace_no_old old new s :
  old ≠ new → Py.contains old (Py.replace old new s) = false.
Proof.
  intros Hne. induction s as [|c s IH]; [done|]. cbn. rewrite IH, orb_false_r.
  destruct (Ascii.eqb_spec c old) as [->|Hc].
  - apply Ascii.eqb_neq. congruence.
  - by apply Ascii.eqb_neq.
Qed.

Lemma replace_keeps_free old new x s :
  x ≠ new → Py.contains x s = false → Py.contains x (Py.replace old new s) = false.
Proof.
  intros Hne. induction s as [|c s IH]; [done|]. cbn.
  intros [Hc Hs]%orb_false_iff. rewrite IH by done. rewrite orb_false_r.
  destruct (Ascii.eqb c old); [|done]. apply Ascii.eqb_neq. congruence.
Qed.

(** X2.  Every badge that [parse_actions] gives has one of the three
    Bootstrap classes, and a label that is not empty and holds neither a
    caret nor a pipe. *)
Theorem badge_invariants (cell : string) :
  Forall (fun b =>
            cls b ∈ ["bg-success"; "bg-danger"; "bg-secondary"]
            ∧ txt b ≠ ""
            ∧ Py.contains "^" (txt b) = false
            ∧ Py.contains "|" (txt b) = false)
         (parse_actions cell).
Proof.
  rewrite parse_actions_segments. apply Forall_fmap.
  pose proof (segments_no_sep cell) as Hp.
  assert (Hn : Forall (fun seg => seg ≠ "") (segments cell)).
  { apply list.Forall_forall. intros seg Hin.
    by apply list_elem_of_filter in Hin as [? _]. }
  rewrite list.Forall_forall in Hp, Hn. apply list.Forall_forall.
  intros seg Hin. specialize (Hp seg Hin). specialize (Hn seg Hin).
  cbn [compose badge_of cls txt]. repeat split.
  - destruct (Py.startswith _ "increases"); [set_solver|].
    destruct (Py.startswith _ "decreases"); set_solver.
  - by destruct seg.
  - by apply replace_no_old.
  - by apply replace_keeps_free.
Qed.

Lemma filter_all {A} (P : A → Prop) `{∀ x, Decision (P x)} (l : list A) :
  Forall P l → filter P l = l.
Proof.
  induction 1 as [|x l Hx _ IH]; [done|]. by rewrite filter_cons_True, IH.
Qed.

Lemma split_pubmed_entries (cell : string) :
  Forall (fun pid => pid ≠ "" ∧ Py.contains "|" pid = false) (split_pubmed cell).
Proof.
  rewrite split_pubmed_segments. pose proof (segments_no_sep cell) as Hp.
  rewrite list.Forall_forall in Hp. apply list.Forall_forall. intros seg Hin.
  split; [|by apply Hp]. by apply list_elem_of_filter in Hin as [? _].
Qed.

(** X5.  Joining identifiers with a pipe and splitting the cell again
    gives the identifiers back exactly when none of them is empty and none
    holds a pipe. *)
Theorem split_pubmed_round_trip (ids : list string) :
  split_pubmed (Py.join "|" ids) = ids
  ↔ Forall (fun pid => pid ≠ "" ∧ Py.contains "|" pid = false) ids.
Proof.
  split.
  - intros <-. apply split_pubmed_entries.
  - intros H. rewrite split_pubmed_segments. unfold segments.
    destruct ids as [|x l]; [done|]. rewrite split_join; [|done|].
    + apply filter_all. eapply Forall_impl; [exact H|]. by intros ? [? _].
    + eapply Forall_impl; [exact H|]. by intros ? [_ ?].
Qed.

Lemma split_pubmed_round_trip_witness :
  split_pubmed (Py.join "|" ["12345"; "67890"; "12345"]) = ["12345"; "67890"; "12345"].
Proof.
  apply (split_pubmed_round_trip ["12345"; "67890"; "12345"]).
  repeat constructor; discriminate.
Defined.

(* ===================================================================== *)
(** ** The vocabularies, further *)
(* ===================================================================== *)
Lemma vocabulary_unique (v values : list string) :
  is_vocabulary v values ↔ v = Py.sorted (Py.unique values).
Proof.
  split; [|intros ->; apply sorted_unique_spec].
  intros (Hs & Hn & Hm).
  destruct (sorted_unique_spec values) as (Hs' & Hn' & Hm').
  apply (StronglySorted_unique String.le); [done..|].
  apply NoDup_Permutation; [done..|]. intros x. by rewrite Hm, Hm'.
Qed.

Lemma unique_from_length seen l : length (Py.unique_from seen l) ≤ length l.
Proof.
  revert seen. induction l as [|x l IH]; intros seen; [done|].
  cbn [Py.unique_from]. destruct (Py.mem x seen); cbn [length].
  - specialize (IH seen). lia.
  - specialize (IH (x :: seen)). lia.
Qed.

(** X12.  The vocabularies are the only lists that are sorted, free of
    duplicates and hold exactly the values of their column; so they depend
    on the set of values only, not on order or repetition of the rows, and
    neither is longer than the list of rows. *)
Theorem vocabulary_determined (rows rows' : list Row) :
  (∀ v, is_vocabulary v (map Chemical rows) ↔ v = chems rows)
  ∧ (∀ v, is_vocabulary v (map Species rows) ↔ v = species_list rows)
  ∧ ((∀ x, x ∈ map Chemical rows ↔ x ∈ map Chemical rows') →
       chems rows = chems rows')
  ∧ ((∀ x, x ∈ map Species rows ↔ x ∈ map Species rows') →
       species_list rows = species_list rows')
  ∧ length (chems rows) ≤ length rows
  ∧ length (species_list rows) ≤ length rows.
Proof.
  split; [intros v; apply vocabulary_unique|].
  split; [intros v; apply vocabulary_unique|].
  assert (Hsame : ∀ values values' : list string,
    (∀ x, x ∈ values ↔ x ∈ values') →
    Py.sorted (Py.unique values) = Py.sorted (Py.unique values')).
  { intros values values' H. apply vocabulary_unique.
    destruct (sorted_unique_spec values) as (Hs & Hn & Hm).
    repeat split; try done.
    - by rewrite Hm, H.
    - by rewrite Hm, H. }
  assert (Hlen : ∀ values : list string,
    length (Py.sorted (Py.unique values)) ≤ length values).
  { intros values. unfold Py.sorted. rewrite merge_sort_Permutation.
    apply unique_from_length. }
  split; [apply Hsame|]. split; [apply Hsame|].
  split; [|]; unfold chems, species_list.
  - etrans; [apply Hlen|]. by rewrite length_map.
  - etrans; [apply Hlen|]. by rewrite length_map.
Qed.

Lemma vocabulary_determined_witness :
  chems (caffeine_rows ++ caffeine_rows) = chems caffeine_rows.
Proof.
  destruct (vocabulary_determined (caffeine_rows ++ caffeine_rows) caffeine_rows)
    as (_ & _ & H & _).
  apply H. intros x. rewrite map_app, elem_of_app. tauto.
Defined.

(* ===================================================================== *)
(** ** The frame *)
(* ===================================================================== *)
Lemma before_no_sep c s : Py.contains c (Py.before c s) = false.
Proof.
  induction s as [|d s IH]; [done|]. cbn [Py.before].
  destruct (Ascii.eqb d c) eqn:E; [done|]. cbn [Py.contains]. by rewrite E, IH.
Qed.

Lemma check_comments_fields (fs : list string) :
  Forall (fun f => Py.contains "#" f = false ∨ Py.mem f Pandas.STR_NA_VALUES = true)
    (Pandas.check_comments fs).
Proof.
  induction fs as [|f fs IH]; [constructor|]. cbn [Pandas.check_comments].
  unfold Pandas.comment.
  destruct (Py.contains "#" f) eqn:Ec; cbn [negb orb].
  - destruct (Py.mem f Pandas.STR_NA_VALUES) eqn:Em.
    + constructor; [by right|done].
    + destruct (Py.truthy (Py.before "#" f)); [|constructor].
      constructor; [|constructor]. left. apply before_no_sep.
  - constructor; [by left|done].
Qed.

Lemma kept_na_to_empty f :
  Py.contains "#" f = false ∨ Py.mem f Pandas.STR_NA_VALUES = true →
  kept (na_to_empty f).
Proof.
  unfold kept, na_to_empty. intros H.
  destruct (Py.mem f Pandas.STR_NA_VALUES) eqn:Em.
  - split; [done|by left].
  - destruct H as [H|H]; [|done]. split; [done|by right].
Qed.

Lemma kept_empty : kept "".
Proof. split; [done|by left]. Qed.

Lemma read_df_rows text frame :
  read_df text = Ok frame →
  ∃ records,
    Csv.reader text = Ok records ∧
    let lines := Pandas.data_lines records in
    let k := Pandas.implicit_first_cols 11 lines in
    Forall (fun l => length l ≤ 11 + k) lines
    ∧ frame = map (fun l => pad 11 (map na_to_empty (drop k l))) lines.
Proof.
  unfold read_df, Pandas.read_csv. change (length FIELD_NAMES) with 11.
  destruct (Csv.reader text) as [records|e]; [|done].
  destruct (Pandas.rows_to_frame 11 _) as [fr|e] eqn:E; [|done].
  intros [= <-]. exists records. split; [done|]. cbv zeta.
  apply rows_to_frame_ok in E as [Hlen ->]. split; [done|].
  unfold Pandas.fillna. rewrite !map_map.
  apply map_ext_Forall. eapply Forall_impl; [exact Hlen|].
  intros l Hl. cbn beta. by apply fillna_row_index.
Qed.

Lemma data_lines_fields records :
  Forall (Forall (fun f => Py.contains "#" f = false
                           ∨ Py.mem f Pandas.STR_NA_VALUES = true))
    (Pandas.data_lines records).
Proof.
  unfold Pandas.data_lines, Pandas.remove_empty_lines.
  apply list.Forall_forall. intros l Hl.
  apply list_elem_of_filter in Hl as [_ Hl].
  apply list_elem_of_fmap in Hl as (fs & -> & _). apply check_comments_fields.
Qed.

(** X6.  Whenever the input parses, every row of the frame has exactly
    eleven cells, no cell holds the comment marker, and no cell other than
    the empty one is an NA token: the marker and the NA tokens never reach
    the report. *)
Theorem frame_invariants (text : string) (frame : list (list string)) :
  read_df text = Ok frame →
  Forall (fun row => length row = 11 ∧ Forall kept row) frame.
Proof.
  intros (records & _ & Hlen & ->)%read_df_rows.
  pose proof (data_lines_fields records) as Hf.
  apply Forall_fmap. apply list.Forall_forall. intros l Hl.
  rewrite list.Forall_forall in Hlen, Hf.
  specialize (Hlen l Hl). specialize (Hf l Hl). cbn beta. split.
  - unfold pad. rewrite length_app, length_replicate, length_map, length_drop. lia.
  - unfold pad. apply Forall_app. split.
    + apply Forall_fmap. apply Forall_drop.
      eapply Forall_impl; [exact Hf|]. intros f Hx. by apply kept_na_to_empty.
    + apply Forall_replicate. apply kept_empty.
Qed.

Lemma frame_invariants_witness :
  Forall (fun row => length row = 11 ∧ Forall kept row)
    [pad 11 [""; "x "]].
Proof.
  apply (frame_invariants ("#N/A,x # note" +:+ LF)).
  vm_compute. reflexivity.
Defined.




Lemma data_lines_app a b :
  Pandas.data_lines (a ++ b) = Pandas.data_lines a ++ Pandas.data_lines b.
Proof.
  unfold Pandas.data_lines, Pandas.remove_empty_lines.
  by rewrite map_app, filter_app.
Qed.


Lemma read_df_data_lines text text' :
  (match Csv.reader text, Csv.reader text' with
   | Ok recs, Ok recs' => Pandas.data_lines recs = Pandas.data_lines recs'
   | Raise e, Raise e' => e = e'
   | _, _ => False
   end) →
  read_df text = read_df text'.
Proof.
  unfold read_df, Pandas.read_csv.
  destruct (Csv.reader text), (Csv.reader text'); try done.
  - by intros ->.
  - by intros ->.
Qed.




(* ===================================================================== *)
(** ** Line endings *)
(* ===================================================================== *)
Lemma process_line_app r a b :
  Csv.process_line r (a +:+ b) =
  match feed r a with
  | Ok r' => Csv.process_line r' b
  | Raise e => Raise e
  end.
Proof.
  revert r. induction a as [|c a IH]; intros r; [done|].
  rewrite app_cons. cbn [Csv.process_line feed].
  destruct (Csv.parse_process_char r (Csv.Char c)); [apply IH|done].
Qed.

Lemma feed_app r a b :
  feed r (a +:+ b) =
  match feed r a with
  | Ok r' => feed r' b
  | Raise e => Raise e
  end.
Proof.
  revert r. induction a as [|c a IH]; intros r; [done|].
  rewrite app_cons. cbn [feed].
  destruct (Csv.parse_process_char r (Csv.Char c)); [apply IH|done].
Qed.

(** Outside quotes: at the start of a record, at the start of a field or
    in a field. *)
Lemma feed_plain r l :
  plain l →
  Csv.state r = Csv.START_RECORD ∨ Csv.state r = Csv.START_FIELD
  ∨ Csv.state r = Csv.IN_FIELD →
  ∃ r', feed r l = Ok r'
        ∧ (Csv.state r' = Csv.START_RECORD ∨ Csv.state r' = Csv.START_FIELD
           ∨ Csv.state r' = Csv.IN_FIELD).
Proof.
  revert r. induction l as [|c l IH]; intros [st f fs] Hl Hst; [by eexists|].
  apply plain_cons in Hl as (Hq & Hn & Hl). cbn [feed Csv.state] in *.
  assert (∃ r1, Csv.parse_process_char
                  {| Csv.state := st; Csv.field := f; Csv.fields := fs |} (Csv.Char c) = Ok r1
                ∧ (Csv.state r1 = Csv.START_FIELD ∨ Csv.state r1 = Csv.IN_FIELD))
    as (r1 & -> & H1).
  { destruct Hst as [-> | [-> | ->]];
      unfold Csv.parse_process_char, Csv.start_field; cbn [Csv.state];
      rewrite Hn, ?Hq; destruct (Ascii.eqb c Csv.delimiter); eexists; split;
      try reflexivity; cbn; auto. }
  apply IH; [done|]. destruct H1; auto.
Qed.

Lemma process_line_ending r l e :
  plain l →
  Csv.state r = Csv.START_RECORD ∨ Csv.state r = Csv.START_FIELD
  ∨ Csv.state r = Csv.IN_FIELD →
  e = CR +:+ LF ∨ e = "" →
  Csv.process_line r (l +:+ e) = Csv.process_line r (l +:+ LF).
Proof.
  intros Hl Hst He. rewrite !process_line_app.
  destruct (feed_plain r l Hl Hst) as ([st f fs] & -> & Hst').
  cbn [Csv.state] in Hst'.
  destruct He as [-> | ->], Hst' as [-> | [-> | ->]]; reflexivity.
Qed.

Lemma iter_lines_crlf l rest :
  plain l →
  Csv.iter_lines (l +:+ CR +:+ LF +:+ rest) = (l +:+ CR +:+ LF) :: Csv.iter_lines rest.
Proof.
  induction l as [|c l IH]; intros Hl; [done|].
  apply plain_cons in Hl as (_ & Hn & Hl).
  rewrite !app_cons. cbn [Csv.iter_lines].
  unfold Csv.is_newline in Hn. apply orb_false_iff in Hn as [-> ->].
  by rewrite IH.
Qed.

Lemma iter_lines_prefix s t :
  one_line s → s ≠ "" →
  Csv.iter_lines (s +:+ t) =
  match Csv.iter_lines t with
  | [] => [s]
  | l :: ls => (s +:+ l) :: ls
  end.
Proof.
  induction s as [|c s IH]; intros [Hcr Hlf] Hne; [done|].
  cbn [Py.contains] in Hcr, Hlf.
  apply orb_false_iff in Hcr as [Hc1 Hcr]. apply orb_false_iff in Hlf as [Hc2 Hlf].
  rewrite app_cons. cbn [Csv.iter_lines]. rewrite Hc1, Hc2.
  destruct s as [|d s].
  - rewrite app_nil_l'. by destruct (Csv.iter_lines t).
  - rewrite IH by done. by destruct (Csv.iter_lines t).
Qed.

Lemma reader_crlf_line l rest :
  plain l →
  Csv.reader (l +:+ CR +:+ LF +:+ rest) =
  match Csv.reader rest with
  | Ok recs => Ok (line_fields l :: recs)
  | Raise e => Raise e
  end.
Proof.
  intros Hl. unfold Csv.reader. rewrite iter_lines_crlf by done.
  cbn [Csv.read_records].
  rewrite (process_line_ending Csv.reset l (CR +:+ LF)) by (auto || by left).
  by rewrite process_plain_line_reset.
Qed.

Lemma reader_text_of ls rest :
  Forall (fun le : string * string => plain le.1 ∧ (le.2 = LF ∨ le.2 = CR +:+ LF)) ls →
  Csv.reader (text_of ls +:+ rest) =
  match Csv.reader rest with
  | Ok recs => Ok (map line_fields (map fst ls) ++ recs)
  | Raise e => Raise e
  end.
Proof.
  induction 1 as [|[l e] ls [Hl He] _ IH]; cbn [text_of foldr map fst snd].
  - rewrite app_nil_l'. by destruct (Csv.reader rest).
  - change (foldr _ "" ls) with (text_of ls). cbn [fst snd] in *.
    destruct He as [-> | ->].
    + rewrite !app_assoc', reader_plain_line, IH by done.
      by destruct (Csv.reader rest).
    + rewrite !app_assoc', reader_crlf_line, IH by done.
      by destruct (Csv.reader rest).
Qed.

Lemma reader_last_line l :
  plain l → l ≠ "" → Csv.reader l = Ok [line_fields l].
Proof.
  intros Hl Hne. unfold Csv.reader.
  assert (Hone : one_line l) by (destruct Hl as (_ & ? & ?); by split).
  pose proof (iter_lines_prefix l "" Hone Hne) as Hi.
  rewrite app_nil_r' in Hi. cbn [Csv.iter_lines] in Hi. rewrite Hi.
  cbn [Csv.read_records].
  rewrite <- (app_nil_r' l) at 1.
  rewrite (process_line_ending Csv.reset l "") by (auto || by left).
  by rewrite process_plain_line_reset.
Qed.

(** X8.  For plain lines it makes no difference whether a line ends in
    LF or in CR LF, and the end of the last line may be missing. *)
Theorem line_endings (ls : list (string * string)) (l : string) :
  Forall (fun le : string * string => plain le.1 ∧ (le.2 = LF ∨ le.2 = CR +:+ LF)) ls →
  plain l →
  read_df (text_of ls) = read_df (lines_text (map fst ls))
  ∧ read_df (text_of ls +:+ l) = read_df (text_of ls +:+ l +:+ LF).
Proof.
  intros Hls Hl. split.
  - apply read_df_data_lines.
    rewrite <- (app_nil_r' (text_of ls)), <- (app_nil_r' (lines_text _)).
    rewrite reader_text_of by done. rewrite reader_plain_lines.
    2:{ apply Forall_fmap. eapply Forall_impl; [exact Hls|]. by intros le [? _]. }
    by rewrite reader_no_text.
  - apply read_df_data_lines. rewrite !reader_text_of by done.
    rewrite <- (app_nil_r' (l +:+ LF)), app_assoc', reader_plain_line by done.
    rewrite reader_no_text.
    destruct l as [|c l'].
    + rewrite reader_no_text. rewrite !data_lines_app. by f_equal.
    + by rewrite reader_last_line.
Qed.

Lemma line_endings_witness :
  read_df (text_of [("a,b", CR +:+ LF); ("c,d", LF)])
  = read_df (lines_text (map fst [("a,b", CR +:+ LF); ("c,d", LF)]))
  ∧ read_df (text_of [("a,b", CR +:+ LF); ("c,d", LF)] +:+ "e,f")
    = read_df (text_of [("a,b", CR +:+ LF); ("c,d", LF)] +:+ "e,f" +:+ LF).
Proof.
  apply (line_endings [("a,b", CR +:+ LF); ("c,d", LF)] "e,f").
  - constructor; [split; [repeat split|by right]|].
    constructor; [split; [repeat split|by left]|]. constructor.
  - repeat split.
Defined.



Lemma feed_double_quotes r f :
  Csv.state r = Csv.IN_QUOTED_FIELD →
  feed r (double_quotes f) =
  Ok {| Csv.state := Csv.IN_QUOTED_FIELD; Csv.field := Csv.field r +:+ f;
        Csv.fields := Csv.fields r |}.
Proof.
  revert r. induction f as [|c f IH]; intros [st x fs] Hst;
    cbn [Csv.state Csv.field Csv.fields] in *; subst st.
  - by rewrite app_nil_r'.
  - cbn [double_quotes]. destruct (Ascii.eqb c Csv.quotechar) eqn:Hq.
    + cbn [feed]. unfold Csv.parse_process_char at 1. cbn [Csv.state]. rewrite Hq.
      unfold Csv.parse_process_char at 1. cbn [Csv.state Csv.set_state]. rewrite Hq.
      rewrite IH by done.
      cbn [Csv.parse_add_char Csv.set_state Csv.state Csv.field Csv.fields].
      by rewrite app_assoc'.
    + cbn [feed]. unfold Csv.parse_process_char at 1. cbn [Csv.state]. rewrite Hq.
      rewrite IH by done.
      cbn [Csv.parse_add_char Csv.state Csv.field Csv.fields].
      by rewrite app_assoc'.
Qed.

Lemma feed_quoted r f :
  Csv.state r = Csv.START_RECORD ∨ Csv.state r = Csv.START_FIELD →
  feed r (quoted f) =
  Ok {| Csv.state := Csv.QUOTE_IN_QUOTED_FIELD; Csv.field := Csv.field r +:+ f;
        Csv.fields := Csv.fields r |}.
Proof.
  destruct r as [st x fs]. intros Hst. cbn [Csv.state Csv.field Csv.fields] in *.
  unfold quoted, QUOTE. rewrite app_cons, app_nil_l'. cbn [feed].
  assert (Csv.parse_process_char {| Csv.state := st; Csv.field := x; Csv.fields := fs |}
            (Csv.Char Csv.quotechar)
          = Ok {| Csv.state := Csv.IN_QUOTED_FIELD; Csv.field := x; Csv.fields := fs |}) as ->.
  { by destruct Hst as [-> | ->]. }
  rewrite feed_app, feed_double_quotes by done.
  cbn [Csv.state Csv.field Csv.fields]. reflexivity.
Qed.


Lemma cell_then_comma st f fs :
  st = Csv.IN_FIELD ∨ st = Csv.QUOTE_IN_QUOTED_FIELD
  ∨ st = Csv.START_RECORD ∨ st = Csv.START_FIELD →
  Csv.parse_process_char {| Csv.state := st; Csv.field := f; Csv.fields := fs |}
    (Csv.Char ",")
  = Ok {| Csv.state := Csv.START_FIELD; Csv.field := ""; Csv.fields := fs ++ [f] |}.
Proof. by intros [-> | [-> | [-> | ->]]]. Qed.




Lemma contains_double_quotes c f :
  Ascii.eqb Csv.quotechar c = false →
  Py.contains c (double_quotes f) = Py.contains c f.
Proof.
  intros Hc. induction f as [|d f IH]; [done|]. cbn [double_quotes].
  destruct (Ascii.eqb d Csv.quotechar) eqn:Hd.
  - apply Ascii.eqb_eq in Hd as ->. cbn [Py.contains]. by rewrite Hc, IH.
  - cbn [Py.contains]. by rewrite IH.
Qed.

Lemma one_line_app a b : one_line a → one_line b → one_line (a +:+ b).
Proof.
  unfold one_line. rewrite !contains_app. by intros [-> ->] [-> ->].
Qed.

Lemma writes_one_line f cell : writes f cell → one_line cell.
Proof.
  intros [(-> & (_ & ? & ?) & _)|(-> & Hcr & Hlf)]; [by split|].
  unfold quoted, QUOTE. split.
  - rewrite !contains_app, contains_double_quotes by done. by rewrite Hcr.
  - rewrite !contains_app, contains_double_quotes by done. by rewrite Hlf.
Qed.








(* ===================================================================== *)
(** ** Irregular quoting *)
(* ===================================================================== *)
Lemma field_start_one_line pre : field_start pre → one_line pre.
Proof.
  intros [-> | (p & (_ & H1 & H2) & ->)]; [done|].
  unfold one_line. rewrite !contains_app. by rewrite H1, H2.
Qed.

Lemma feed_field_start pre :
  field_start pre →
  ∃ r, feed Csv.reset pre = Ok r
       ∧ (Csv.state r = Csv.START_RECORD ∨ Csv.state r = Csv.START_FIELD).
Proof.
  intros [-> | (p & Hp & ->)]; [exists Csv.reset; auto|].
  rewrite feed_app.
  destruct (feed_plain Csv.reset p Hp (or_introl eq_refl)) as ([st f fs] & -> & Hst).
  cbn [Csv.state] in Hst. cbn [feed]. rewrite cell_then_comma.
  - eexists. split; [reflexivity|]. by right.
  - destruct Hst as [-> | [-> | ->]]; auto.
Qed.

Lemma process_in_quoted r l :
  Csv.state r = Csv.IN_QUOTED_FIELD → Py.contains Csv.quotechar l = false →
  ∃ r', Csv.process_line r l = Ok r' ∧ Csv.state r' = Csv.IN_QUOTED_FIELD.
Proof.
  revert r. induction l as [|c l IH]; intros [st f fs] Hst Hq; cbn [Csv.state] in *; subst st.
  - by eexists.
  - cbn [Py.contains] in Hq. apply orb_false_iff in Hq as [Hc Hq].
    cbn [Csv.process_line]. unfold Csv.parse_process_char. cbn [Csv.state].
    rewrite Hc. by apply IH.
Qed.

Lemma read_in_quoted r lines :
  Csv.state r = Csv.IN_QUOTED_FIELD →
  Forall (fun l => Py.contains Csv.quotechar l = false) lines →
  Csv.read_records r lines = Raise (ParserError "unexpected end of data").
Proof.
  intros Hst H. revert r Hst. induction H as [|l lines Hl _ IH]; intros r Hst.
  - cbn [Csv.read_records]. rewrite Hst. by rewrite orb_true_r.
  - cbn [Csv.read_records].
    destruct (process_in_quoted r l Hst Hl) as (r' & -> & Hst').
    rewrite Hst'. cbn [Csv.state_eqb]. by apply IH.
Qed.

Lemma iter_lines_contains c s :
  Py.contains c s = false →
  Forall (fun l => Py.contains c l = false) (Csv.iter_lines s).
Proof.
  assert (H : ∀ n s, String.length s ≤ n → Py.contains c s = false →
                     Forall (fun l => Py.contains c l = false) (Csv.iter_lines s)).
  { clear s. induction n as [|n IH]; intros s Hn Hs.
    - destruct s; [constructor|cbn in Hn; lia].
    - destruct s as [|a s]; [constructor|]. cbn [String.length] in Hn.
      cbn [Py.contains] in Hs. apply orb_false_iff in Hs as [Ha Hs].
      cbn [Csv.iter_lines]. destruct (Ascii.eqb a "010").
      + constructor; [cbn [Py.contains]; by rewrite Ha|]. apply IH; [lia|done].
      + destruct (Ascii.eqb a "013").
        * destruct s as [|d s]; [constructor; [|constructor]; cbn [Py.contains]; by rewrite Ha|].
          cbn [Py.contains] in Hs. apply orb_false_iff in Hs as [Hd Hs'].
          destruct (Ascii.eqb d "010").
          -- constructor; [cbn [Py.contains]; by rewrite Ha, Hd|].
             apply IH; [cbn [String.length] in Hn; lia|done].
          -- constructor; [cbn [Py.contains]; by rewrite Ha|].
             apply IH; [lia|]. cbn [Py.contains]. by rewrite Hd, Hs'.
        * assert (Hrec := IH s ltac:(lia) Hs).
          destruct (Csv.iter_lines s) as [|l ls].
          -- constructor; [|constructor]. cbn [Py.contains]. by rewrite Ha.
          -- apply Forall_cons in Hrec as [Hl Hls]. constructor; [|done].
             cbn [Py.contains]. by rewrite Ha, Hl. }
  intros Hs. by apply (H (String.length s)).
Qed.

Lemma unterminated_quote_reader (above : list string) (pre body : string) :
  Forall plain above → field_start pre →
  Py.contains Csv.quotechar body = false →
  read_df (lines_text above +:+ pre +:+ QUOTE +:+ body)
  = Raise (ParserError "unexpected end of data").
Proof.
  intros Ha Hpre Hbody. unfold read_df, Pandas.read_csv.
  rewrite reader_plain_lines by done.
  assert (Hr : Csv.reader (pre +:+ QUOTE +:+ body)
               = Raise (ParserError "unexpected end of data")); [|by rewrite Hr].
  unfold Csv.reader. rewrite <- app_assoc'.
  rewrite iter_lines_prefix.
  2:{ apply one_line_app; [by apply field_start_one_line|done]. }
  2:{ by destruct pre. }
  destruct (feed_field_start pre Hpre) as ([st f fs] & Hfeed & Hst).
  cbn [Csv.state] in Hst.
  assert (Hq : feed Csv.reset (pre +:+ QUOTE)
               = Ok {| Csv.state := Csv.IN_QUOTED_FIELD; Csv.field := f;
                       Csv.fields := fs |}).
  { rewrite feed_app, Hfeed. by destruct Hst as [-> | ->]. }
  pose proof (iter_lines_contains Csv.quotechar body Hbody) as Hlines.
  destruct (Csv.iter_lines body) as [|l ls].
  - cbn [Csv.read_records].
    rewrite <- (app_nil_r' (pre +:+ QUOTE)), process_line_app, Hq.
    cbn [Csv.process_line Csv.parse_process_char Csv.state Csv.state_eqb].
    by rewrite orb_true_r.
  - apply Forall_cons in Hlines as [Hl Hls]. cbn [Csv.read_records].
    rewrite process_line_app, Hq.
    destruct (process_in_quoted {| Csv.state := Csv.IN_QUOTED_FIELD; Csv.field := f;
                                   Csv.fields := fs |} l eq_refl Hl) as (r' & -> & Hst').
    rewrite Hst'. cbn [Csv.state_eqb]. by apply read_in_quoted.
Qed.

(** X10.  A double quote that opens a field, below lines without double
    quotes, and is never closed makes the parse raise: the rest of the
    file is taken into the quoted field and the input ends inside it, or
    the field outgrows what a field may hold. *)
Theorem unterminated_quote_raises (above : list string) (pre body : string) :
  Forall plain above → field_start pre →
  Py.contains Csv.quotechar body = false →
  ∃ msg, read_df (lines_text above +:+ pre +:+ QUOTE +:+ body)
         = Raise (ParserError msg).
Proof.
  intros Ha Hpre Hbody. eexists. by apply unterminated_quote_reader.
Qed.

Lemma unterminated_quote_raises_witness :
  ∃ msg, read_df (lines_text ["a,b"] +:+ ("c" +:+ ",") +:+ QUOTE
                  +:+ ("d" +:+ LF +:+ "e,f" +:+ LF))
         = Raise (ParserError msg).
Proof.
  apply (unterminated_quote_raises ["a,b"] ("c" +:+ ",") ("d" +:+ LF +:+ "e,f" +:+ LF)).
  - repeat constructor.
  - right. exists "c". split; [repeat split|reflexivity].
  - reflexivity.
Defined.

(** X11.  Text after the closing quote of a quoted field, other than a
    comma, a quote or the end of the line, makes the parse raise. *)
Theorem text_after_quote_raises (above : list string) (pre f rest : string) (c : ascii) :
  Forall plain above → field_start pre → one_line f →
  Ascii.eqb c Csv.quotechar = false → Ascii.eqb c Csv.delimiter = false →
  Csv.is_newline c = false →
  ∃ msg, read_df (lines_text above +:+ pre +:+ quoted f +:+ String c rest)
         = Raise (ParserError msg).
Proof.
  intros Ha Hpre Hf Hq Hd Hn. eexists. unfold read_df, Pandas.read_csv.
  rewrite reader_plain_lines by done.
  assert (Hr : Csv.reader (pre +:+ quoted f +:+ String c rest)
               = Raise (ParserError "',' expected after quote")); [|by rewrite Hr].
  unfold Csv.reader.
  assert (E : pre +:+ quoted f +:+ String c rest
              = (pre +:+ quoted f +:+ String c "") +:+ rest).
  { by rewrite !app_assoc', app_cons, app_nil_l'. }
  rewrite E. clear E.
  assert (Hfeed : feed Csv.reset (pre +:+ quoted f +:+ String c "")
                  = Raise (ParserError "',' expected after quote")).
  { destruct (feed_field_start pre Hpre) as (r & Hr & Hst).
    rewrite feed_app, Hr, feed_app, feed_quoted by done.
    cbn [feed]. unfold Csv.parse_process_char. cbn [Csv.state].
    by rewrite Hq, Hd, Hn. }
  rewrite iter_lines_prefix.
  2:{ apply one_line_app; [by apply field_start_one_line|].
      apply one_line_app; [apply (writes_one_line f); by right|].
      unfold Csv.is_newline in Hn. apply orb_false_iff in Hn as [H1 H2].
      split; cbn [Py.contains]; by rewrite ?H1, ?H2. }
  2:{ destruct pre; [|done]. rewrite app_nil_l'. unfold quoted, QUOTE. done. }
  destruct (Csv.iter_lines rest) as [|l ls]; cbn [Csv.read_records].
  - rewrite <- (app_nil_r' (pre +:+ _)), process_line_app, Hfeed. done.
  - by rewrite process_line_app, Hfeed.
Qed.

Lemma text_after_quote_raises_witness :
  ∃ msg, read_df (lines_text ["a,b"] +:+ "" +:+ quoted "alpha"
                  +:+ String "x" (",c" +:+ LF))
         = Raise (ParserError msg).
Proof.
  apply (text_after_quote_raises ["a,b"] "" "alpha" (",c" +:+ LF) "x").
  - repeat constructor.
  - by left.
  - split; reflexivity.
  - reflexivity.
  - reflexivity.
  - reflexivity.
Defined.

(* ===================================================================== *)
(** ** What the document holds *)
(* ===================================================================== *)
Lemma prefix_self_app p b : String.prefix p (p +:+ b) = true.
Proof.
  rewrite <- (app_nil_r' p) at 1. induction p as [|c p IH]; [apply prefix_nil|].
  rewrite !app_cons, prefix_cons, Ascii.eqb_refl. exact IH.
Qed.

Lemma occurs_here pat b : occurs pat (pat +:+ b) = true.
Proof.
  destruct (pat +:+ b) eqn:E; cbn [occurs]; rewrite <- E, prefix_self_app; done.
Qed.

Lemma occurs_app_r pat a b : occurs pat b = true → occurs pat (a +:+ b) = true.
Proof.
  intros H. induction a as [|c a IH]; [done|].
  rewrite app_cons. cbn [occurs]. by rewrite IH, orb_true_r.
Qed.

Lemma occurs_app_l pat a b : occurs pat a = true → occurs pat (a +:+ b) = true.
Proof.
  induction a as [|c a IH].
  - cbn [occurs]. rewrite orb_false_r. intros H. destruct pat; [|done].
    apply occurs_here.
  - cbn [occurs]. intros [H|H]%orb_true_iff.
    + rewrite app_cons. cbn [occurs]. rewrite <- app_cons.
      by rewrite prefix_app_weaken.
    + rewrite app_cons. cbn [occurs]. by rewrite IH, orb_true_r.
Qed.

Lemma occurs_3 p1 v p2 b : occurs (p1 +:+ v +:+ p2) (p1 +:+ v +:+ p2 +:+ b) = true.
Proof.
  replace (p1 +:+ v +:+ p2 +:+ b) with ((p1 +:+ v +:+ p2) +:+ b)
    by (by rewrite !app_assoc').
  apply occurs_here.
Qed.

Lemma occurs_5 p1 v p2 u p3 b :
  occurs (p1 +:+ v +:+ p2 +:+ u +:+ p3) (p1 +:+ v +:+ p2 +:+ u +:+ p3 +:+ b) = true.
Proof.
  replace (p1 +:+ v +:+ p2 +:+ u +:+ p3 +:+ b)
    with ((p1 +:+ v +:+ p2 +:+ u +:+ p3) +:+ b) by (by rewrite !app_assoc').
  apply occurs_here.
Qed.

Lemma occurs_for_loop {A} pat (body : A → bool → string) (items : list A) x :
  x ∈ items → (∀ last, occurs pat (body x last) = true) →
  occurs pat (Jinja.for_loop body items) = true.
Proof.
  intros Hx Hb. induction items as [|y l IH]; [by apply elem_of_nil in Hx|].
  cbn [Jinja.for_loop]. destruct l as [|z l].
  - apply list_elem_of_singleton in Hx as ->. apply Hb.
  - apply elem_of_cons in Hx as [-> | Hx].
    + apply occurs_app_l, Hb.
    + apply occurs_app_r, IH, Hx.
Qed.

Lemma occurs_option v last :
  occurs (option_html v) (render_option default_env v last) = true.
Proof.
  unfold render_option, option_html, default_env, Jinja.output.
  cbn [Jinja.autoescape Jinja.default_environment].
  change T_option_open with (String "010" "          " +:+ dq "<option value=`").
  change T_option_close with ("</option>" +:+ String "010" "          ").
  rewrite !app_assoc'. apply occurs_app_r. apply occurs_5.
Qed.

Lemma occurs_badge b last :
  occurs (badge_html b) (render_badge default_env b last) = true.
Proof.
  unfold render_badge, badge_html, default_env, Jinja.output.
  cbn [Jinja.autoescape Jinja.default_environment].
  change T_badge_open with (String "010" "          " +:+ dq "<span class=`badge ").
  change T_badge_close with ("</span>" +:+ String "010" "          ").
  rewrite !app_assoc'. apply occurs_app_r. apply occurs_5.
Qed.

Lemma occurs_link pid last :
  occurs (link_html pid) (render_link default_env pid last) = true.
Proof.
  unfold render_link, link_html, default_env, Jinja.output.
  cbn [Jinja.autoescape Jinja.default_environment].
  change T_link_open
    with (String "010" "          " +:+ dq "<a href=`https://pubmed.ncbi.nlm.nih.gov/").
  unfold T_link_mid, T_link_close.
  rewrite !app_assoc'. apply occurs_app_r. apply occurs_5.
Qed.

Lemma occurs_row row last :
  Forall (fun v => occurs (cell_html v) (render_row default_env row last) = true)
    [Chemical row; Species row; GeneSymbol row; Interaction row]
  ∧ Forall (fun b => occurs (badge_html b) (render_row default_env row last) = true)
      (Badges row)
  ∧ Forall (fun pid => occurs (link_html pid) (render_row default_env row last) = true)
      (PubMedIDs row).
Proof.
  unfold render_row, cell_html, default_env, Jinja.output.
  cbn [Jinja.autoescape Jinja.default_environment].
  change T_row_open
    with ((String "010" "      <tr>" +:+ String "010" "        ") +:+ "<td>").
  change T_cell with ("</td>" +:+ String "010" "        " +:+ "<td>").
  change T_badges_open
    with ("</td>" +:+ String "010" "        <td>" +:+ String "010" "          ").
  rewrite !app_assoc'. split; [|split].
  - repeat (constructor; [repeat first [apply occurs_3 | apply occurs_app_r]|]).
    constructor.
  - apply list.Forall_forall. intros b Hb.
    repeat lazymatch goal with
           | |- occurs _ (Jinja.for_loop (render_badge _) _ +:+ _) = true => fail
           | |- occurs _ (_ +:+ _) = true => apply occurs_app_r
           end.
    apply occurs_app_l.
    apply occurs_for_loop with (x := b); [done|]. intros l. apply occurs_badge.
  - apply list.Forall_forall. intros pid Hp.
    repeat lazymatch goal with
           | |- occurs _ (Jinja.for_loop (render_link _) _ +:+ _) = true => fail
           | |- occurs _ (_ +:+ _) = true => apply occurs_app_r
           end.
    apply occurs_app_l.
    apply occurs_for_loop with (x := pid); [done|]. intros l. apply occurs_link.
Qed.

(** X13.  Nothing of a row is left out of the document: it holds an
    option element for the chemical and for the species of every row, a
    table cell for each of its four columns, a badge element for each of
    its badges and a link for each of its PubMed identifiers. *)
Theorem values_reach_document (rows : list Row) (row : Row) :
  row ∈ rows →
  occurs (option_html (Chemical row)) (document rows) = true
  ∧ occurs (option_html (Species row)) (document rows) = true
  ∧ Forall (fun v => occurs (cell_html v) (document rows) = true)
      [Chemical row; Species row; GeneSymbol row; Interaction row]
  ∧ Forall (fun b => occurs (badge_html b) (document rows) = true) (Badges row)
  ∧ Forall (fun pid => occurs (link_html pid) (document rows) = true)
      (PubMedIDs row).
Proof.
  intros Hrow.
  assert (Hc : Chemical row ∈ chems rows) by (apply chems_elem_of; eauto).
  assert (Hs : Species row ∈ species_list rows) by (apply species_list_elem_of; eauto).
  assert (Hin : ∀ pat, (∀ last, occurs pat (render_row default_env row last) = true) →
                       occurs pat (document rows) = true).
  { intros pat Hp. unfold document, render.
    do 5 apply occurs_app_r. apply occurs_app_l.
    by apply occurs_for_loop with (x := row). }
  split; [|split; [|split; [|split]]].
  - unfold document, render. apply occurs_app_r, occurs_app_l.
    apply occurs_for_loop with (x := Chemical row); [done|].
    intros l. apply occurs_option.
  - unfold document, render. do 3 apply occurs_app_r. apply occurs_app_l.
    apply occurs_for_loop with (x := Species row); [done|].
    intros l. apply occurs_option.
  - apply list.Forall_forall. intros v Hv. apply Hin. intros l.
    destruct (occurs_row row l) as (H & _). rewrite list.Forall_forall in H. by apply H.
  - apply list.Forall_forall. intros v Hv. apply Hin. intros l.
    destruct (occurs_row row l) as (_ & H & _). rewrite list.Forall_forall in H. by apply H.
  - apply list.Forall_forall. intros v Hv. apply Hin. intros l.
    destruct (occurs_row row l) as (_ & _ & H). rewrite list.Forall_forall in H. by apply H.
Qed.

Lemma values_reach_document_witness :
  occurs (option_html "Caffeine") (document caffeine_rows) = true
  ∧ occurs (link_html "67890") (document caffeine_rows) = true.
Proof.
  unfold caffeine_rows.
  match goal with
  | |- context [document [?r]] =>
      destruct (values_reach_document [r] r) as (H1 & _ & _ & _ & H5)
  end.
  - apply list_elem_of_here.
  - split; [exact H1|]. cbn [PubMedIDs] in H5.
    apply Forall_cons in H5 as [_ H5]. by apply Forall_cons in H5 as [H5 _].
Defined.


Lemma tame_for_loop_sum {A} pat (body : A → bool → string) (items : list A)
    (k : A → nat) :
  Forall (fun x => ∀ last, tame pat (body x last) (k x)) items →
  tame pat (Jinja.for_loop body items) (sum_list (map k items)).
Proof.
  induction 1 as [|x l Hx Hl IH]; [done|].
  cbn [Jinja.for_loop map sum_list]. destruct l as [|y l].
  - cbn [map sum_list]. rewrite Nat.add_0_r. apply Hx.
  - by apply tame_app.
Qed.

Lemma tame_for_loop_last {A} pat (body : A → bool → string) (items : list A) :
  Forall (fun x => tame pat (body x false) 1 ∧ tame pat (body x true) 0) items →
  tame pat (Jinja.for_loop body items) (length items - 1).
Proof.
  induction 1 as [|x l [Hx1 Hx0] Hl IH]; [done|].
  cbn [Jinja.for_loop]. destruct l as [|y l]; [apply Hx0|].
  eapply tame_eq; [by apply tame_app|]. cbn [length]. lia.
Qed.

Ltac tame_go2 :=
  first [ tame_leaf | eapply tame_app; [tame_leaf | tame_go2] ].

Ltac plain_output :=
  unfold default_env, Jinja.output;
  cbn [Jinja.autoescape Jinja.default_environment].

Ltac tame_closed := split; vm_compute; reflexivity.

Lemma tame_option_elements v last :
  Py.contains "<" v = false →
  tame badge_tag (render_option default_env v last) 0
  ∧ tame link_tag (render_option default_env v last) 0
  ∧ tame link_separator (render_option default_env v last) 0.
Proof.
  intros Hv. unfold render_option. plain_output.
  split; [|split]; (eapply tame_eq; [tame_go2|reflexivity]).
Qed.

Lemma tame_badge_elements b last :
  Py.contains "<" (cls b) = false → Py.contains "<" (txt b) = false →
  tame badge_tag (render_badge default_env b last) 1
  ∧ tame link_tag (render_badge default_env b last) 0
  ∧ tame link_separator (render_badge default_env b last) 0.
Proof.
  intros Hc Ht. unfold render_badge. plain_output.
  split; [|split]; (eapply tame_eq; [tame_go2|reflexivity]).
Qed.

Lemma tame_link_elements pid last :
  Py.contains "<" pid = false →
  tame badge_tag (render_link default_env pid last) 0
  ∧ tame link_tag (render_link default_env pid last) 1
  ∧ tame link_separator (render_link default_env pid last)
      (if last then 0 else 1).
Proof.
  intros Hp. unfold render_link. plain_output.
  assert (Hsep : tame link_separator (T_link_close +:+ T_link_sep +:+ T_link_end) 1)
    by tame_closed.
  assert (Hend : tame link_separator (T_link_close +:+ "" +:+ T_link_end) 0)
    by tame_closed.
  destruct last; cbn [negb];
    (split; [|split]; (eapply tame_eq; [tame_go2|reflexivity])).
Qed.

Lemma tame_row_elements row last :
  tag_free row →
  tame badge_tag (render_row default_env row last) (length (Badges row))
  ∧ tame link_tag (render_row default_env row last) (length (PubMedIDs row))
  ∧ tame link_separator (render_row default_env row last)
      (length (PubMedIDs row) - 1).
Proof.
  intros Hrow. apply interpolated_Forall in Hrow as (H1 & H2 & H3 & H4 & Hb & Hp).
  assert (Hb1 : tame badge_tag
                  (Jinja.for_loop (render_badge Jinja.default_environment) (Badges row))
                  (1 * length (Badges row))).
  { apply tame_for_loop. eapply Forall_impl; [exact Hb|].
    intros b [Hc Ht] l. exact (proj1 (tame_badge_elements b l Hc Ht)). }
  assert (Hb2 : tame link_tag
                  (Jinja.for_loop (render_badge Jinja.default_environment) (Badges row))
                  (0 * length (Badges row))).
  { apply tame_for_loop. eapply Forall_impl; [exact Hb|].
    intros b [Hc Ht] l. exact (proj1 (proj2 (tame_badge_elements b l Hc Ht))). }
  assert (Hb3 : tame link_separator
                  (Jinja.for_loop (render_badge Jinja.default_environment) (Badges row))
                  (0 * length (Badges row))).
  { apply tame_for_loop. eapply Forall_impl; [exact Hb|].
    intros b [Hc Ht] l. exact (proj2 (proj2 (tame_badge_elements b l Hc Ht))). }
  assert (Hl1 : tame badge_tag
                  (Jinja.for_loop (render_link Jinja.default_environment) (PubMedIDs row))
                  (0 * length (PubMedIDs row))).
  { apply tame_for_loop. eapply Forall_impl; [exact Hp|].
    intros pid Hpid l. exact (proj1 (tame_link_elements pid l Hpid)). }
  assert (Hl2 : tame link_tag
                  (Jinja.for_loop (render_link Jinja.default_environment) (PubMedIDs row))
                  (1 * length (PubMedIDs row))).
  { apply tame_for_loop. eapply Forall_impl; [exact Hp|].
    intros pid Hpid l. exact (proj1 (proj2 (tame_link_elements pid l Hpid))). }
  assert (Hl3 : tame link_separator
                  (Jinja.for_loop (render_link Jinja.default_environment) (PubMedIDs row))
                  (length (PubMedIDs row) - 1)).
  { apply tame_for_loop_last. eapply Forall_impl; [exact Hp|].
    intros pid Hpid. split.
    - exact (proj2 (proj2 (tame_link_elements pid false Hpid))).
    - exact (proj2 (proj2 (tame_link_elements pid true Hpid))). }
  unfold render_row. plain_output.
  split; [|split].
  - clear Hb2 Hb3 Hl2 Hl3. eapply tame_eq; [tame_go|lia].
  - clear Hb1 Hb3 Hl1 Hl3. eapply tame_eq; [tame_go|lia].
  - clear Hb1 Hb2 Hl1 Hl2. eapply tame_eq; [tame_go|lia].
Qed.

(** X14.  When no value of a row holds the character that opens a tag,
    the document has one badge element per badge, one link per PubMed
    identifier, and within each row one separator less than links: none
    after the last link, none for a row without links. *)
Theorem badges_and_links_counted (rows : list Row) :
  Forall tag_free rows →
  count badge_tag (document rows) = sum_list (map (fun r => length (Badges r)) rows)
  ∧ count link_tag (document rows)
    = sum_list (map (fun r => length (PubMedIDs r)) rows)
  ∧ count link_separator (document rows)
    = sum_list (map (fun r => length (PubMedIDs r) - 1) rows).
Proof.
  intros Hr.
  pose proof (tag_free_chems rows Hr) as Hc.
  pose proof (tag_free_species rows Hr) as Hs.
  assert (Hdoc : ∀ pat (k : Row → nat),
            (∀ v last, Py.contains "<" v = false →
                       tame pat (render_option default_env v last) 0) →
            (∀ r last, tag_free r → tame pat (render_row default_env r last) (k r)) →
            tame pat T_head 0 → tame pat T_species 0 → tame pat T_table 0 →
            tame pat T_tail 0 →
            count pat (document rows) = sum_list (map k rows)).
  { intros pat k Hopt Hrow Hh Hsp Htb Htl.
    assert (H1 : tame pat (Jinja.for_loop (render_option Jinja.default_environment)
                             (chems rows)) (0 * length (chems rows))).
    { apply tame_for_loop. eapply Forall_impl; [exact Hc|]. intros v Hv l. by apply Hopt. }
    assert (H2 : tame pat (Jinja.for_loop (render_option Jinja.default_environment)
                             (species_list rows)) (0 * length (species_list rows))).
    { apply tame_for_loop. eapply Forall_impl; [exact Hs|]. intros v Hv l. by apply Hopt. }
    assert (H3 : tame pat (Jinja.for_loop (render_row Jinja.default_environment) rows)
                   (sum_list (map k rows))).
    { apply tame_for_loop_sum. eapply Forall_impl; [exact Hr|]. intros r Hx l.
      by apply Hrow. }
    assert (H : tame pat (document rows) (sum_list (map k rows))); [|apply H].
    unfold document, render.
    eapply tame_eq.
    - eapply tame_app; [exact Hh|]. eapply tame_app; [exact H1|].
      eapply tame_app; [exact Hsp|]. eapply tame_app; [exact H2|].
      eapply tame_app; [exact Htb|]. eapply tame_app; [exact H3|]. exact Htl.
    - lia. }
  split; [|split].
  - apply Hdoc.
    + intros v l Hv. exact (proj1 (tame_option_elements v l Hv)).
    + intros r l Hx. exact (proj1 (tame_row_elements r l Hx)).
    + split; vm_compute; reflexivity.
    + split; vm_compute; reflexivity.
    + split; vm_compute; reflexivity.
    + split; vm_compute; reflexivity.
  - apply Hdoc.
    + intros v l Hv. exact (proj1 (proj2 (tame_option_elements v l Hv))).
    + intros r l Hx. exact (proj1 (proj2 (tame_row_elements r l Hx))).
    + split; vm_compute; reflexivity.
    + split; vm_compute; reflexivity.
    + split; vm_compute; reflexivity.
    + split; vm_compute; reflexivity.
  - apply Hdoc.
    + intros v l Hv. exact (proj2 (proj2 (tame_option_elements v l Hv))).
    + intros r l Hx. exact (proj2 (proj2 (tame_row_elements r l Hx))).
    + split; vm_compute; reflexivity.
    + split; vm_compute; reflexivity.
    + split; vm_compute; reflexivity.
    + split; vm_compute; reflexivity.
Qed.

Lemma badges_and_links_counted_witness :
  count badge_tag (document caffeine_rows) = 1
  ∧ count link_tag (document caffeine_rows) = 2
  ∧ count link_separator (document caffeine_rows) = 1.
Proof.
  apply (badges_and_links_counted caffeine_rows). repeat constructor.
Defined.

(* ===================================================================== *)
(** ** The run, further *)
(* ===================================================================== *)
Ltac run_steps :=
  unfold main, script, mbind, M_bind, bind, read_file, lift, makedirs,
    write_file, print.

Lemma main_cases (w : World) :
  main w = (1, w)
  ∨ main w = (1, with_dir w)
  ∨ ∃ f rows,
      files w !! CTD_FILE = Some f ∧ readable f = true
      ∧ load (content f) = Ok rows
      ∧ output_writable w
      ∧ main w = (0, with_output w (document rows)).
Proof.
  run_steps.
  destruct (files w !! CTD_FILE) as [f|] eqn:Ef; [|by left].
  destruct (readable f) eqn:Er; [|by left].
  destruct (load (content f)) as [rows|e] eqn:El; [|by left].
  destruct (files w !! OUTPUT_DIR) as [d|] eqn:Ed; [by left|].
  cbn [files dirs stdout].
  destruct (decide (OUTPUT_HTML ∈ ({[OUTPUT_DIR]} ∪ dirs w : gset string))) as [Hin|Hin];
    [by right; left|].
  assert (Hd : OUTPUT_HTML ∉ dirs w) by set_solver.
  destruct (files w !! OUTPUT_HTML) as [g|] eqn:Eg.
  - destruct (writable g) eqn:Ew; [|by right; left].
    right; right. exists f, rows.
    split; [done|]. split; [done|]. split; [done|]. split.
    + split; [done|]. split; [done|]. intros g' Hg'. congruence.
    + unfold with_output. by rewrite Eg.
  - right; right. exists f, rows.
    split; [done|]. split; [done|]. split; [done|]. split.
    + split; [done|]. split; [done|]. intros g' Hg'. congruence.
    + unfold with_output. by rewrite Eg.
Qed.

(** X15.  What a run has done can be read off the world it leaves.  With
    exit status 0 the document was written and the confirmation printed.
    A file differs from before only when the run got as far as the output
    file, which then holds the whole document; and a line was printed only
    then, and it is the confirmation.  So a run that stops before the
    output (no input, no parse, no way to write) leaves every file as it
    was, and no run, whatever its status, leaves a file that it changed
    without the document in place.  (A write that fails half way is not
    among the failures of the file system here.) *)
Theorem main_outcomes (w w' : World) (code : nat) :
  main w = (code, w') →
  (code = 0 →
     document_written w w' ∧ stdout w' = stdout w ++ [confirmation])
  ∧ (files w' ≠ files w → document_written w w')
  ∧ (stdout w' ≠ stdout w →
       document_written w w' ∧ stdout w' = stdout w ++ [confirmation]).
Proof.
  intros Hm.
  destruct (main_cases w) as [H|[H|(f & rows & Hf & Hr & Hl & Hw & H)]];
    rewrite H in Hm; injection Hm as <- <-.
  - split; [done|]. split; [by intros []|by intros []].
  - split; [done|]. split; [by intros []|by intros []].
  - assert (Hd : document_written w (with_output w (document rows))).
    { exists f, rows. split; [done|]. split; [done|]. split; [done|].
      split; [done|]. split.
      - cbn [with_output files]. by rewrite lookup_insert_eq.
      - cbn [with_output dirs]. apply elem_of_union. left. by apply elem_of_singleton. }
    split; [done|]. split; [done|]. done.
Qed.

Lemma main_outcomes_witness :
  document_written (world_with caffeine_text)
    (with_output (world_with caffeine_text) (document caffeine_rows))
  ∧ stdout (with_output (world_with caffeine_text) (document caffeine_rows))
    = stdout (world_with caffeine_text) ++ [confirmation].
Proof.
  destruct (main_outcomes (world_with caffeine_text)
              (with_output (world_with caffeine_text) (document caffeine_rows)) 0)
    as (H & _).
  - vm_compute. reflexivity.
  - by apply H.
Defined.

(** X16.  Whatever the outcome, no file other than the output file is
    created, changed or removed by a run; the input file in particular. *)
Theorem main_touches_only_output (w : World) (p : string) :
  p ≠ OUTPUT_HTML →
  files (main w).2 !! p = files w !! p.
Proof.
  intros Hp. destruct (main_cases w) as [H|[H|(f & rows & _ & _ & _ & _ & H)]];
    rewrite H; cbn [snd with_dir with_output files]; [done..|].
  by rewrite lookup_insert_ne.
Qed.

Lemma main_touches_only_output_witness :
  files (main (world_with caffeine_text)).2 !! CTD_FILE
  = files (world_with caffeine_text) !! CTD_FILE.
Proof.
  apply (main_touches_only_output (world_with caffeine_text) CTD_FILE).
  discriminate.
Defined.

(** X17.  When the input is readable but does not parse, the run ends
    with exit status 1 before the output directory is made: the world is as
    it was. *)
Theorem parse_error_aborts (w : World) (f : File) (e : exn) :
  files w !! CTD_FILE = Some f → readable f = true →
  load (content f) = Raise e →
  main w = (1, w).
Proof.
  intros Hf Hr Hl. run_steps. by rewrite Hf, Hr, Hl.
Qed.

Lemma parse_error_aborts_witness :
  main (world_with twelve_fields_text) = (1, world_with twelve_fields_text).
Proof.
  apply (parse_error_aborts (world_with twelve_fields_text) (file twelve_fields_text)
           (ParserError "Expected fewer fields")).
  - reflexivity.
  - reflexivity.
  - vm_compute. reflexivity.
Defined.

Lemma with_dir_there w : OUTPUT_DIR ∈ dirs w → with_dir w = w.
Proof.
  intros Hd. destruct w as [fs ds out]. unfold with_dir. cbn [files dirs stdout] in *.
  f_equal. apply set_eq. intros x. rewrite elem_of_union, elem_of_singleton.
  split; [intros [-> | ?]; done|by right].
Qed.

(** X18.  When the input parses but the output cannot be written, because
    the output file is there and may not be written or a directory has its
    name, the run ends with exit status 1 and the world is as it was: the
    output directory, which holds that file or directory, was there
    before, and the old output file is not touched. *)
Theorem write_failure_changes_nothing (w : World) (f : File) (rows : list Row) :
  files w !! CTD_FILE = Some f → readable f = true →
  load (content f) = Ok rows →
  files w !! OUTPUT_DIR = None → OUTPUT_DIR ∈ dirs w →
  (OUTPUT_HTML ∈ dirs w
   ∨ ∃ g, files w !! OUTPUT_HTML = Some g ∧ writable g = false) →
  main w = (1, w).
Proof.
  intros Hf Hr Hl Hd Hin Hbad. rewrite <- (with_dir_there w Hin) at 2.
  unfold main, script, mbind, M_bind, bind, read_file, lift, makedirs,
    write_file, print.
  rewrite Hf, Hr, Hl, Hd.
  cbn [files dirs stdout]. destruct (decide _) as [?|Hn]; [done|].
  destruct Hbad as [Hbad|(g & Hg & Hw)].
  - exfalso. apply Hn. apply elem_of_union. by right.
  - by rewrite Hg, Hw.
Qed.

Lemma write_failure_changes_nothing_witness :
  main read_only_output_world = (1, read_only_output_world).
Proof.
  apply (write_failure_changes_nothing read_only_output_world
           (file caffeine_text) caffeine_rows).
  - vm_compute. reflexivity.
  - reflexivity.
  - apply load_caffeine.
  - vm_compute. reflexivity.
  - change (OUTPUT_DIR ∈ ({[ OUTPUT_DIR ]} : gset string)).
    by apply elem_of_singleton.
  - right. exists {| readable := true; writable := false; content := "old" |}.
    split; [vm_compute; reflexivity|reflexivity].
Defined.

Lemma with_dir_twice w : with_dir (with_dir w) = with_dir w.
Proof.
  unfold with_dir. cbn [files dirs stdout]. f_equal.
  apply set_eq. intros x. rewrite !elem_of_union. tauto.
Qed.

(** The run as one case distinction on the world it starts in. *)
Lemma main_eq (w : World) :
  main w =
    match files w !! CTD_FILE with
    | None => (1, w)
    | Some f =>
        if readable f then
          match load (content f) with
          | Raise _ => (1, w)
          | Ok rows =>
              match files w !! OUTPUT_DIR with
              | Some _ => (1, w)
              | None =>
                  if decide (OUTPUT_HTML ∈ dirs w) then (1, with_dir w)
                  else
                    match files w !! OUTPUT_HTML with
                    | Some g =>
                        if writable g then (0, with_output w (document rows))
                        else (1, with_dir w)
                    | None => (0, with_output w (document rows))
                    end
              end
          end
        else (1, w)
    end.
Proof.
  run_steps.
  destruct (files w !! CTD_FILE) as [f|] eqn:Ef; [|done].
  destruct (readable f) eqn:Er; [|done].
  destruct (load (content f)) as [rows|e] eqn:El; [|done].
  destruct (files w !! OUTPUT_DIR) as [d|] eqn:Ed; [done|].
  cbn [files dirs stdout].
  destruct (decide (OUTPUT_HTML ∈ ({[OUTPUT_DIR]} ∪ dirs w : gset string))) as [Hin|Hin];
    destruct (decide (OUTPUT_HTML ∈ dirs w)) as [Hin'|Hin']; try done.
  - exfalso. apply Hin'. apply elem_of_union in Hin as [Hin|Hin]; [|done].
    apply elem_of_singleton in Hin. discriminate.
  - exfalso. apply Hin. set_solver.
  - unfold with_output. destruct (files w !! OUTPUT_HTML) as [g|] eqn:Eg; [|done].
    by destruct (writable g).
Qed.

(** X19.  Running the script again on the world a run leaves behind
    gives the same exit status, the same files and the same directories:
    only the confirmation is printed once more. *)
Theorem main_twice (w : World) :
  (main (main w).2).1 = (main w).1
  ∧ files (main (main w).2).2 = files (main w).2
  ∧ dirs (main (main w).2).2 = dirs (main w).2.
Proof.
  assert (Hdir : ∀ v, OUTPUT_HTML ∈ dirs (with_dir v) ↔ OUTPUT_HTML ∈ dirs v).
  { intros v. cbn [with_dir dirs]. rewrite elem_of_union, elem_of_singleton.
    split; [intros [Hx|Hx]; [discriminate|done]|by right]. }
  rewrite (main_eq w).
  destruct (files w !! CTD_FILE) as [f|] eqn:Ef.
  2:{ cbn [snd fst]. rewrite (main_eq w), Ef. done. }
  destruct (readable f) eqn:Er.
  2:{ cbn [snd fst]. rewrite (main_eq w), Ef, Er. done. }
  destruct (load (content f)) as [rows|e] eqn:El.
  2:{ cbn [snd fst]. rewrite (main_eq w), Ef, Er, El. done. }
  destruct (files w !! OUTPUT_DIR) as [d|] eqn:Ed.
  { cbn [snd fst]. rewrite (main_eq w), Ef, Er, El, Ed. done. }
  assert (Hok : main (with_output w (document rows))
                = (0, with_output (with_output w (document rows)) (document rows))
                ∧ files (with_output (with_output w (document rows)) (document rows))
                  = files (with_output w (document rows))
                ∧ dirs (with_output (with_output w (document rows)) (document rows))
                  = dirs (with_output w (document rows))
          ∨ OUTPUT_HTML ∈ dirs w).
  { destruct (decide (OUTPUT_HTML ∈ dirs w)) as [Hin|Hin]; [by right|left].
    split.
    - rewrite main_eq. cbn [with_output files dirs].
      rewrite lookup_insert_ne by done. rewrite Ef, Er, El.
      rewrite lookup_insert_ne by done. rewrite Ed.
      destruct (decide _) as [Hx|Hx].
      { exfalso. apply Hin. apply elem_of_union in Hx as [Hx|Hx]; [|done].
        apply elem_of_singleton in Hx. discriminate. }
      rewrite lookup_insert_eq. cbn [writable]. done.
    - cbn [with_output files dirs]. rewrite lookup_insert_eq, insert_insert_eq.
      cbn [from_option readable]. split; [done|].
      apply set_eq. intros x. rewrite !elem_of_union. tauto. }
  assert (Hlate : (OUTPUT_HTML ∈ dirs w
                   ∨ ∃ g, files w !! OUTPUT_HTML = Some g ∧ writable g = false) →
                  main (with_dir w) = (1, with_dir w)).
  { intros Hbad. rewrite main_eq.
    change (files (with_dir w)) with (files w).
    rewrite Ef, Er, El, Ed, with_dir_twice.
    destruct (decide _) as [Hx|Hx]; [done|].
    destruct Hbad as [Hbad|(g & -> & ->)]; [|done].
    exfalso. apply Hx. by apply Hdir. }
  destruct (decide (OUTPUT_HTML ∈ dirs w)) as [Hin|Hin].
  { cbn [snd fst]. rewrite Hlate by auto. done. }
  destruct Hok as [(Hm & Hfs & Hds)|Hin']; [|done].
  destruct (files w !! OUTPUT_HTML) as [g|] eqn:Eg.
  - destruct (writable g) eqn:Ew.
    + cbn [snd fst]. rewrite Hm. done.
    + cbn [snd fst]. rewrite Hlate by eauto. done.
  - cbn [snd fst]. rewrite Hm. done.
Qed.
